(** * Session state engine of the study-consultant service (src/main.py)

    A shallow embedding of the request handlers of [main.py]:
    the profile store ([init_db], [get_session], [save_session] and the
    session endpoints), the fact merger (the loop over [extracted.items()]),
    the progress estimate, the stop-signal detector and the [chat] handler
    with its top-level [except Exception].

    Modelling conventions.
    - A Python [str] is a [string]; every [ascii] stands for one code point,
      so the model covers code points 0..255, where [str.lower] acts
      character by character and [str.strip] removes the characters for which
      [str.isspace] holds.
    - A decoded JSON value is a [pyval].  The profile dictionary keeps
      insertion order (it is iterated to build the prompt), so it is an
      association list updated in place.
    - The sqlite table [sessions] is a finite map from [session_id] to its
      row.  The two TEXT columns hold [json.dumps] of a list of turns and of
      the profile; [json.loads] gives those values back, so a row stores the
      values themselves.
    - The language model, the clock and the faults of the database driver
      are the environment of a request ([env]). *)

From Stdlib Require Import ZArith QArith Qround Qminmax Lia Bool Ascii.
From Stdlib Require Import Floats.SpecFloat.
From stdpp Require Import base option list gmap strings pretty sorting.

Local Open Scope string_scope.
Set Warnings "-register-all".

(** ** Python strings *)

Module PyStr.

(** [str.isspace] on one code point below 256. *)
Definition isspace (c : ascii) : bool :=
  let n := N_of_ascii c in
  ((9 <=? n) && (n <=? 13) || (28 <=? n) && (n <=? 32)
   || (n =? 133) || (n =? 160))%N.

(** [str.lower] on one code point below 256: A-Z and the Latin-1 capitals
    (all of U+00C0..U+00DE but the multiplication sign U+00D7). *)
Definition lower_char (c : ascii) : ascii :=
  let n := N_of_ascii c in
  if ((65 <=? n) && (n <=? 90)
      || (192 <=? n) && (n <=? 222) && negb (n =? 215))%N
  then ascii_of_N (n + 32) else c.

Fixpoint lower (s : string) : string :=
  match s with
  | EmptyString => EmptyString
  | String c s' => String (lower_char c) (lower s')
  end.

Fixpoint lstrip (s : string) : string :=
  match s with
  | EmptyString => EmptyString
  | String c s' => if isspace c then lstrip s' else s
  end.

Fixpoint rstrip (s : string) : string :=
  match s with
  | EmptyString => EmptyString
  | String c s' =>
      match rstrip s' with
      | EmptyString => if isspace c then EmptyString else String c EmptyString
      | r => String c r
      end
  end.

(** [s.strip()] *)
Definition strip (s : string) : string := rstrip (lstrip s).

(** Truth value of a [str]: non-empty. *)
Definition nonempty (s : string) : bool :=
  match s with EmptyString => false | String _ _ => true end.

(** [s.startswith(p)] *)
Definition startswith (s p : string) : bool := String.prefix p s.

(** [sub in s] *)
Fixpoint contains (sub s : string) : bool :=
  String.prefix sub s
  || match s with
     | EmptyString => false
     | String _ s' => contains sub s'
     end.

(** [s[n:]] for [0 <= n] *)
Fixpoint drop (n : nat) (s : string) : string :=
  match n, s with
  | O, _ => s
  | S _, EmptyString => EmptyString
  | S n', String _ s' => drop n' s'
  end.

(** [s.partition(sep)]: the text before the first [sep] and the text after
    it, or [None] when [sep] does not occur. *)
Fixpoint partition (sep s : string) : option (string * string) :=
  if String.prefix sep s then Some (EmptyString, drop (String.length sep) s)
  else match s with
       | EmptyString => None
       | String c s' =>
           match partition sep s' with
           | Some (b, a) => Some (String c b, a)
           | None => None
           end
       end.

(** [s.split(sep)] for a non-empty [sep]; the fuel bounds the number of
    pieces and [String.length s] is always enough. *)
Fixpoint split_fuel (fuel : nat) (sep s : string) : list string :=
  match fuel with
  | O => [s]
  | S fuel' =>
      match partition sep s with
      | None => [s]
      | Some (b, a) => b :: split_fuel fuel' sep a
      end
  end.

Definition split (sep s : string) : list string :=
  split_fuel (String.length s) sep s.

(** [sep.join(parts)] *)
Fixpoint join (sep : string) (parts : list string) : string :=
  match parts with
  | [] => EmptyString
  | [p] => p
  | p :: rest => p ++ sep ++ join sep rest
  end.

Fixpoint all_space (s : string) : bool :=
  match s with
  | EmptyString => true
  | String c s' => isspace c && all_space s'
  end.

End PyStr.

(** ** Decoded JSON values *)

(** What [json.loads] returns: [None], [bool], [int], [float], [str], [list]
    and [dict] (whose keys are always [str]). *)
Inductive pyval : Type :=
| PyNone
| PyBool (b : bool)
| PyInt (z : Z)
| PyFloat (f : spec_float)
| PyStr (s : string)
| PyList (l : list pyval)
| PyDict (d : list (string * pyval)).

(** Truth value of an object, as tested by [if v and ...]. *)
Definition truthy (v : pyval) : bool :=
  match v with
  | PyNone => false
  | PyBool b => b
  | PyInt z => negb (z =? 0)%Z
  | PyFloat (S754_zero _) => false
  | PyFloat _ => true
  | PyStr s => PyStr.nonempty s
  | PyList l => match l with [] => false | _ => true end
  | PyDict d => match d with [] => false | _ => true end
  end.

(** The profile: a [dict] from [str] to [str] in insertion order. *)
Definition profile : Type := list (string * string).

(** [d.get(k)] *)
Fixpoint dict_get (d : profile) (k : string) : option string :=
  match d with
  | [] => None
  | (k', v') :: d' => if String.eqb k' k then Some v' else dict_get d' k
  end.

(** [d[k] = v]: an existing key keeps its position, a new key goes last. *)
Fixpoint dict_set (d : profile) (k v : string) : profile :=
  match d with
  | [] => [(k, v)]
  | (k', v') :: d' =>
      if String.eqb k' k then (k', v) :: d' else (k', v') :: dict_set d' k v
  end.

(** The tuple of values that carry no information (main.py, 265-269). *)
Definition sentinels : list string :=
  ["null"; "none"; EmptyString; "n/a"; "unknown"].

(** [x in t] for a tuple of strings. *)
Definition in_tuple (x : string) (t : list string) : bool :=
  existsb (String.eqb x) t.

Section Merger.

(** [repr] of a [float], a [list] or a [dict]: the interpreter's printing of
    floats and containers, which [str] uses for these three types. *)
Variable py_repr : pyval -> string.

(** [str(v)] *)
Definition py_str (v : pyval) : string :=
  match v with
  | PyNone => "None"
  | PyBool true => "True"
  | PyBool false => "False"
  | PyInt z => pretty z
  | PyStr s => s
  | PyFloat _ | PyList _ | PyDict _ => py_repr v
  end.

(** The guard of the merge loop (main.py, 264-270):
    [v and str(v).strip().lower() not in (...)], the tuple being
    [sentinels]. *)
Definition passes_filter (v : pyval) : bool :=
  truthy v && negb (in_tuple (PyStr.lower (PyStr.strip (py_str v))) sentinels).

(** One iteration of [for k, v in extracted.items()] (main.py, 263-276).
    [current] is a stored value, hence a [str]: [not current] tests for the
    empty string and [str(current)] is [current]. *)
Definition merge_pair (profile_data : profile) (k : string) (v : pyval) : profile :=
  if passes_filter v then
    let clean_v := PyStr.strip (py_str v) in
    let current := default EmptyString (dict_get profile_data k) in
    if negb (PyStr.nonempty current)
       || (String.length current <? String.length clean_v)%nat
    then dict_set profile_data k clean_v
    else profile_data
  else profile_data.

(** The whole loop. *)
Definition merge_facts (profile_data : profile) (items : list (string * pyval)) : profile :=
  fold_left (fun p kv => merge_pair p (fst kv) (snd kv)) items profile_data.

End Merger.

(** ** Progress estimate *)

(** [int(x)] of a non-integral number truncates toward zero. *)
Definition py_int (q : Q) : Z := Z.quot (Qnum q) (Z.pos (Qden q)).

(** [min(100, int((profile_keys / 18) * 100))] (main.py, 278-279), the true
    division and the product taken over the rationals. *)
Definition progress (profile_keys : nat) : Z :=
  Z.min 100 (py_int ((inject_Z (Z.of_nat profile_keys) / 18) * 100)%Q).

(** The same expression over IEEE binary64, which is what the interpreter
    evaluates: [int -> float] conversion, correctly rounded division and
    product, truncation. *)
Module Binary64.

Definition of_Z (z : Z) : spec_float := binary_normalize 53 1024 z 0 false.

(** [int(f)]; on an infinity or a NaN the interpreter raises, and no key
    count leads there. *)
Definition truncate (f : spec_float) : Z :=
  match f with
  | S754_finite s m e =>
      let a := if (0 <=? e)%Z then (Z.pos m * 2 ^ e)%Z
               else Z.shiftr (Z.pos m) (- e) in
      if s then (- a)%Z else a
  | _ => 0%Z
  end.

Definition progress (profile_keys : nat) : Z :=
  Z.min 100
    (truncate
       (SFmul 53 1024
          (SFdiv 53 1024 (of_Z (Z.of_nat profile_keys)) (of_Z 18))
          (of_Z 100))).

End Binary64.

(** ** Completion detector *)

(** The phrases that end the interview (main.py, 687-703). *)
Definition stop_signals : list string :=
  [ "i think i have a good picture now";
    "i think i have a good sense";
    "i feel like i understand you well";
    "i've got a solid sense of where you're at";
    "ready to talk about a plan";
    "ready to talk about next steps";
    "think we have enough to start";
    "got a good understanding now";
    "i think that's all i need";
    "we've covered the main things";
    "ready to move forward";
    "have a good sense of your background";
    "ready to discuss";
    "i think we're good to go";
    "i have a pretty complete picture" ].

(** [any(phrase in ai_lower for phrase in stop_signals)] *)
Definition has_stop_signal (ai_lower : string) : bool :=
  existsb (fun phrase => PyStr.contains phrase ai_lower) stop_signals.

(** ** Sessions, rows and messages *)

(** One entry of [chat_history]: [{"role": ..., "content": ...}]. *)
Record turn : Type := Turn { role : string; content : string }.

(** The dictionary built by [get_session]. *)
Record session : Type := Session {
  session_id : string;
  chat_history : list turn;
  profile_data : profile;
  is_complete : bool
}.

(** A row of the table [sessions], keyed by its [session_id]. *)
Record row : Type := Row {
  row_chat_history : list turn;
  row_profile_data : profile;
  row_is_complete : bool;
  row_created_at : N
}.

Record ChatRequest : Type := Request {
  rq_session_id : string;
  rq_message : string;
  rq_is_first_message : bool
}.

Record ChatResponse : Type := Response {
  rs_question : string;
  rs_is_complete : bool;
  rs_progress : Z;
  rs_session_id : string
}.

(** ** The environment of a request *)

(** The two prompts sent to the model, by the values interpolated into
    their fixed text. *)
Inductive prompt : Type :=
| ExtractPrompt (chat_context : string) (latest_message : string)
    (current_profile : profile)
| FullPrompt (profile_summary : string) (recent_history : list turn)
    (user_said : string).

(** [model.generate_content(...)] followed by [response.text]: a text, or
    an exception. *)
Inductive reply : Type :=
| ServiceError
| ResponseText (text : string).

(** The statements run against [profiles.db]. *)
Inductive statement : Type :=
| SqlSelect | SqlInsert | SqlUpdate | SqlDelete | SqlSelectAll.

Record env : Type := Env {
  generate_content : prompt -> reply;
  sqlite_fault : statement -> bool;   (* the driver raises on this statement *)
  current_timestamp : N
}.

(** What a request can observe and change: the table, and the trace of
    calls to the model and of sleeps. *)
Inductive event : Type :=
| Generate (p : prompt)
| Sleep (seconds : nat).

Record world : Type := World {
  db : gmap string row;
  trace : list event
}.

Inductive exn : Type :=
| OperationalError     (* raised by sqlite3 *)
| AttributeError.      (* [extracted.items()] on a value that is no dict *)

(** How a handler ends: it returns a value or an exception leaves it. *)
Inductive outcome (A : Type) : Type :=
| Returned (a : A)
| Raised (e : exn).
Arguments Returned {A} a.
Arguments Raised {A} e.

(** Handlers run in a state-and-exception monad; what was written before an
    exception stays written. *)
Definition M (A : Type) : Type := world -> outcome A * world.

Definition ret {A} (a : A) : M A := fun w => (Returned a, w).

Definition raise {A} (e : exn) : M A := fun w => (Raised e, w).

Definition bind {A B} (c : M A) (k : A -> M B) : M B :=
  fun w =>
    match c w with
    | (Returned a, w') => k a w'
    | (Raised e, w') => (Raised e, w')
    end.

(** [try: c  except Exception: h] *)
Definition try_except {A} (c : M A) (h : exn -> M A) : M A :=
  fun w =>
    match c w with
    | (Returned a, w') => (Returned a, w')
    | (Raised e, w') => h e w'
    end.

#[global] Instance M_ret : MRet M := @ret.
#[global] Instance M_bind : MBind M := fun A B k c => bind c k.

Definition log (ev : event) : M unit :=
  fun w => (Returned tt, World (db w) (trace w ++ [ev])%list).

Definition read_db : M (gmap string row) := fun w => (Returned (db w), w).

Definition write_db (d : gmap string row) : M unit :=
  fun w => (Returned tt, World d (trace w)).

(** [l[-n:]] *)
Definition last_n {A} (n : nat) (l : list A) : list A :=
  drop (length l - n) l.

Definition newline : string := String (ascii_of_nat 10) EmptyString.

(** ORDER BY created_at DESC *)
Definition newer (a b : string * row) : Prop :=
  (row_created_at (snd b) <= row_created_at (snd a))%N.

#[global] Instance newer_dec : RelDecision newer.
Proof. intros a b. unfold newer. apply _. Defined.

Section Handlers.

Variable py_repr : pyval -> string.

(** [json.loads(raw)]: the decoded value, [None] for a
    [json.JSONDecodeError]. *)
Variable json_loads : string -> option pyval.

(** The environment of the request being served. *)
Variable E : env.

(** A statement either runs or makes the driver raise before any change
    is committed. *)
Definition execute (st : statement) : M unit :=
  if sqlite_fault E st then raise OperationalError else ret tt.

(** [get_session] (main.py, 76-103): the stored session, or a new empty
    row that is inserted and returned. *)
Definition get_session (sid : string) : M session :=
  execute SqlSelect;;
  d ← read_db;
  match d !! sid with
  | Some r =>
      mret (Session sid (row_chat_history r) (row_profile_data r)
              (row_is_complete r))
  | None =>
      execute SqlInsert;;
      write_db (<[sid := Row [] [] false (current_timestamp E)]> d);;
      mret (Session sid [] [] false)
  end.

(** [save_session] (main.py, 106-128): an UPDATE of the row of [sid], which
    changes nothing when there is no such row. *)
Definition save_session (sid : string) (profile_data : profile)
    (chat_history : list turn) (is_complete : bool) : M unit :=
  execute SqlUpdate;;
  d ← read_db;
  match d !! sid with
  | Some r =>
      write_db (<[sid := Row chat_history profile_data is_complete
                           (row_created_at r)]> d)
  | None => mret tt
  end.

(** The default of the last parameter of [save_session]. *)
Definition save_session_default_is_complete : bool := false.

(** [init_db] (main.py, 29-46): DROP TABLE IF EXISTS, then CREATE TABLE. *)
Definition init_db : M unit := write_db ∅.

(** [model.generate_content(prompt, ...)] and [response.text] *)
Definition call_model (p : prompt) : M reply :=
  log (Generate p);;
  mret (generate_content E p).

(** The text handed to [json.loads] (main.py, 243-249). *)
Definition unfence (text : string) : string :=
  let raw := PyStr.strip text in
  if PyStr.startswith raw "```" then
    let raw := nth 1 (PyStr.split "```" raw) EmptyString in
    let raw := if PyStr.startswith raw "json" then PyStr.drop 4 raw else raw in
    PyStr.strip raw
  else raw.

(** The extraction call with its two handlers (main.py, 234-261): any
    failure gives the empty dictionary. *)
Definition extract (p : prompt) : M pyval :=
  r ← call_model p;
  match r with
  | ResponseText text =>
      match json_loads (unfence text) with
      | Some extracted => mret extracted
      | None => mret (PyDict [])
      end
  | ServiceError =>
      log (Sleep 2);;
      mret (PyDict [])
  end.

(** [extracted.items()] *)
Definition items (extracted : pyval) : M (list (string * pyval)) :=
  match extracted with
  | PyDict d => mret d
  | _ => raise AttributeError
  end.

Definition chat_context (recent_chat : list turn) : string :=
  PyStr.join newline
    (map (fun msg => role msg ++ ": " ++ content msg) recent_chat).

(** [profile_summary] (main.py, 281-284) *)
Definition profile_summary (p : profile) : string :=
  let s := PyStr.join newline
             (map (fun kv => "- " ++ fst kv ++ ": " ++ snd kv) p) in
  if PyStr.nonempty s then s else "Nothing solid yet".

Definition apology : string :=
  "Sorry, something went wrong. Can you say that again?".

Definition greeting : string :=
  "Hey, what's up? Tell me a bit about yourself to get started.".

(** The generation call with its handler (main.py, 670-684). *)
Definition generate (p : prompt) : M string :=
  r ← call_model p;
  match r with
  | ResponseText text => mret (PyStr.strip text)
  | ServiceError =>
      log (Sleep 2);;
      mret apology
  end.

(** Extraction and merge (main.py, 161-276), run when the message is not
    blank: the profile after the loop. *)
Definition learn (request : ChatRequest) (session : session)
    (chat_history : list turn) : M profile :=
  if PyStr.nonempty (PyStr.strip (rq_message request)) then
    let recent_chat :=
      if (4 <=? length chat_history)%nat
      then last_n 4 chat_history else chat_history in
    extracted ←
      extract (ExtractPrompt (chat_context recent_chat)
                 (rq_message request) (profile_data session));
    kvs ← items extracted;
    mret (merge_facts py_repr (profile_data session) kvs)
  else mret (profile_data session).

(** The branch of a flagged first message (main.py, 140-156).
    [save_session] is called without its last argument. *)
Definition first_turn (request : ChatRequest) (session : session)
    : M ChatResponse :=
  let chat_history :=
    (chat_history session ++ [Turn "assistant" greeting])%list in
  save_session (rq_session_id request) (profile_data session)
    chat_history save_session_default_is_complete;;
  mret (Response greeting false 0 (rq_session_id request)).

(** Every other turn (main.py, 158-726). *)
Definition next_turn (request : ChatRequest) (session : session)
    : M ChatResponse :=
  let chat_history :=
    if PyStr.nonempty (PyStr.strip (rq_message request))
    then (chat_history session ++ [Turn "user" (rq_message request)])%list
    else chat_history session in
  profile_data ← learn request session chat_history;
  let profile_keys := length profile_data in
  let progress := progress profile_keys in
  ai_reply ←
    generate (FullPrompt (profile_summary profile_data)
                (last_n 10 chat_history) (rq_message request));
  let ai_lower := PyStr.lower ai_reply in
  let is_complete :=
    if has_stop_signal ai_lower then true else is_complete session in
  let chat_history := (chat_history ++ [Turn "assistant" ai_reply])%list in
  save_session (rq_session_id request) profile_data chat_history
    is_complete;;
  mret (Response ai_reply is_complete progress (rq_session_id request)).

(** The body of the [try] of [chat] (main.py, 138-726). *)
Definition chat_body (request : ChatRequest) : M ChatResponse :=
  session ← get_session (rq_session_id request);
  if rq_is_first_message request
  then first_turn request session
  else next_turn request session.

(** The response of the top-level handler (main.py, 728-735). *)
Definition fallback (request : ChatRequest) : ChatResponse :=
  Response apology false 0 (rq_session_id request).

(** POST /chat *)
Definition chat (request : ChatRequest) : M ChatResponse :=
  try_except (chat_body request) (fun _ => mret (fallback request)).

(** GET /session/{session_id} (main.py, 743-745) *)
Definition get_session_data (sid : string) : M session :=
  get_session sid.

(** GET /sessions (main.py, 748-760): newest first. *)
Definition get_all_sessions : M (list (string * bool * N)) :=
  execute SqlSelectAll;;
  d ← read_db;
  let rows := merge_sort newer (map_to_list d) in
  mret (map (fun r => (fst r, row_is_complete (snd r), row_created_at (snd r)))
          rows).

(** DELETE /session/{session_id} (main.py, 763-770) *)
Definition delete_session (sid : string) : M string :=
  execute SqlDelete;;
  d ← read_db;
  write_db (delete sid d);;
  mret "Session deleted".

End Handlers.

(** ** Runs of the service *)

(** What the service can be asked to do: start (which runs [init_db]) and
    the four session endpoints. *)
Inductive operation : Type :=
| Startup
| PostChat (request : ChatRequest)
| GetSession (sid : string)
| GetSessions
| DeleteSession (sid : string).

Section Runs.

Variable py_repr : pyval -> string.
Variable json_loads : string -> option pyval.

(** The world after one operation in environment [E]. *)
Definition perform (E : env) (op : operation) (w : world) : world :=
  match op with
  | Startup => snd (init_db w)
  | PostChat request => snd (chat py_repr json_loads E request w)
  | GetSession sid => snd (get_session_data E sid w)
  | GetSessions => snd (get_all_sessions E w)
  | DeleteSession sid => snd (delete_session E sid w)
  end.

(** The world after a sequence of turns, each in its own environment. *)
Fixpoint chat_turns (ts : list (env * ChatRequest)) (w : world) : world :=
  match ts with
  | [] => w
  | (E, request) :: ts' =>
      chat_turns ts' (snd (chat py_repr json_loads E request w))
  end.

(** Completion monotonicity as the specification words it: a turn on a
    session stored as complete stores and returns [complete = true]. *)
Definition completion_never_reverts (E : env) (request : ChatRequest)
    (w : world) : Prop :=
  forall r,
    db w !! rq_session_id request = Some r ->
    row_is_complete r = true ->
    (exists r', db (snd (chat py_repr json_loads E request w))
                  !! rq_session_id request = Some r'
                /\ row_is_complete r' = true)
    /\ (forall response,
          fst (chat py_repr json_loads E request w) = Returned response ->
          rs_is_complete response = true).

(** Storage-fault propagation as the specification words it: when the
    driver raises during the turn, the caller gets a failure and not a
    response. *)
Definition storage_fault_propagates (E : env) (request : ChatRequest)
    (w : world) : Prop :=
  fst (chat_body py_repr json_loads E request w) = Raised OperationalError ->
  exists e, fst (chat py_repr json_loads E request w) = Raised e.

(** Explicit-delete-only as the specification words it: a stored session
    is still stored after any operation but the deletion of that very
    session. *)
Definition only_delete_removes (E : env) (op : operation) (sid : string)
    (w : world) : Prop :=
  is_Some (db w !! sid) ->
  op <> DeleteSession sid ->
  is_Some (db (perform E op w) !! sid).

End Runs.

(** A computation that leaves the table as it found it. *)
Definition keeps_db {A} (c : M A) : Prop := forall w, db (snd (c w)) = db w.

(** ** Sample inputs *)

Module Sample.

(** The sample values are scalars and empty containers. *)
Definition py_repr (v : pyval) : string :=
  match v with
  | PyList [] => "[]"
  | PyDict [] => "{}"
  | PyFloat (S754_zero false) => "0.0"
  | _ => "..."
  end.

(** A decoder for the three texts the sample model sends. *)
Definition json_loads (raw : string) : option pyval :=
  if String.eqb raw "{}" then Some (PyDict [])
  else if String.eqb raw "[1]" then Some (PyList [PyInt 1])
  else if String.eqb raw "0" then Some (PyInt 0)
  else None.

Definition no_fault (st : statement) : bool := false.

Definition fault_on (bad : statement) (st : statement) : bool :=
  match bad, st with
  | SqlSelect, SqlSelect | SqlInsert, SqlInsert | SqlUpdate, SqlUpdate
  | SqlDelete, SqlDelete | SqlSelectAll, SqlSelectAll => true
  | _, _ => false
  end.

(** A model that finds no fact and asks a plain question. *)
Definition plain_model (p : prompt) : reply :=
  match p with
  | ExtractPrompt _ _ _ => ResponseText "{}"
  | FullPrompt _ _ _ => ResponseText "Nice. What are you studying?"
  end.

(** A model whose extraction answer is a JSON list. *)
Definition list_model (p : prompt) : reply :=
  match p with
  | ExtractPrompt _ _ _ => ResponseText "[1]"
  | FullPrompt _ _ _ => ResponseText "Nice. What are you studying?"
  end.

Definition healthy : env := Env plain_model no_fault 7.
Definition odd_extraction : env := Env list_model no_fault 7.
Definition select_fails : env := Env plain_model (fault_on SqlSelect) 7.
Definition update_fails : env := Env plain_model (fault_on SqlUpdate) 7.

Definition empty_world : world := World ∅ [].

(** One stored session, complete, with a two-turn transcript. *)
Definition finished_row : row :=
  Row [Turn "user" "that is all"; Turn "assistant" "i think we're good to go"]
    [("city", "Lahore")] true 3.

Definition finished_world : world := World {[ "s" := finished_row ]} [].

Definition first_message : ChatRequest := Request "s" "hello" true.
Definition later_message : ChatRequest := Request "s" "thanks" false.

Definition eighteen_facts : profile :=
  map (fun n : nat => (pretty n, "x")) (seq 0 18).

End Sample.

(** ** Observations *)

(** The prompts sent to the model among the events of a trace, in order. *)
Definition model_calls (tr : list event) : list prompt :=
  flat_map (fun ev => match ev with Generate p => [p] | Sleep _ => [] end) tr.

Definition is_extraction (p : prompt) : bool :=
  match p with ExtractPrompt _ _ _ => true | FullPrompt _ _ _ => false end.

(** A value as the merge loop writes it: trimmed and not empty. *)
Definition clean_value (s : string) : Prop :=
  PyStr.strip s = s /\ s <> EmptyString.

(** The order of the entries of the listing: newest first. *)
Definition newer_entry (a b : string * bool * N) : Prop := (snd b <= snd a)%N.

(** The entry of the listing for a row. *)
Definition entry_of (kr : string * row) : string * bool * N :=
  (fst kr, row_is_complete (snd kr), row_created_at (snd kr)).

(** Every key of [P] is a key of [Q], with a value at least as long. *)
Definition grows_to (P Q : profile) : Prop :=
  forall k old,
    dict_get P k = Some old ->
    exists new, dict_get Q k = Some new
                /\ String.length old <= String.length new.

(** Candidate [(k, v)] has nothing to add to [Q]: if it passes the guard,
    [Q] already holds under [k] a non-empty value at least as long. *)
Definition settled (py_repr : pyval -> string) (Q : profile) (k : string)
    (v : pyval) : Prop :=
  passes_filter py_repr v = true ->
  exists cur,
    dict_get Q k = Some cur
    /\ cur <> EmptyString
    /\ String.length (PyStr.strip (py_str py_repr v)) <= String.length cur.

(** What the extraction step hands to the loop for prompt [p]: the decoded
    answer of the model, or the empty dictionary after a fault or an
    undecodable answer. *)
Definition extracted_of (json_loads : string -> option pyval) (E : env)
    (p : prompt) : pyval :=
  match generate_content E p with
  | ResponseText text => default (PyDict []) (json_loads (unfence text))
  | ServiceError => PyDict []
  end.

(** What the generation step yields for prompt [p]: the trimmed answer of
    the model, or the apology after a fault. *)
Definition ai_reply_of (E : env) (p : prompt) : string :=
  match generate_content E p with
  | ResponseText text => PyStr.strip text
  | ServiceError => apology
  end.

(** The events a call to the model leaves in the trace. *)
Definition call_events (E : env) (p : prompt) : list event :=
  match generate_content E p with
  | ResponseText _ => [Generate p]
  | ServiceError => [Generate p; Sleep 2]
  end.

(** The transcript a turn works on: the stored one, with the message of the
    request when it is not blank. *)
Definition heard (request : ChatRequest) (h : list turn) : list turn :=
  if PyStr.nonempty (PyStr.strip (rq_message request))
  then (h ++ [Turn "user" (rq_message request)])%list
  else h.

(** A text without the character of the code fence. *)
Fixpoint no_backtick (s : string) : bool :=
  match s with
  | EmptyString => true
  | String c s' => negb (Ascii.eqb c "`") && no_backtick s'
  end.

(** ** More sample inputs *)

Module Scenario.

(** A model whose extraction call fails. *)
Definition deaf_model (p : prompt) : reply :=
  match p with
  | ExtractPrompt _ _ _ => ServiceError
  | FullPrompt _ _ _ => ResponseText " Got it. Where do you study? "
  end.


Definition deaf : env := Env deaf_model Sample.no_fault 9.
Definition broken : env := Env Sample.plain_model (fun _ => true) 9.

(** An older and a newer session. *)
Definition two_sessions : world :=
  World (<[ "t" := Row [] [] false 8 ]> {[ "s" := Sample.finished_row ]}) [].

Definition candidates : list (string * pyval) :=
  [("city", PyStr " Lahore "); ("age", PyInt 0); ("city", PyStr "LHR");
   ("name", PyStr "unknown"); ("degree", PyStr "BS")].

End Scenario.

(** * Properties *)

(** ** Strings *)

Module PyStrFacts.
Import PyStr.

Lemma lstrip_all_space s : all_space s = true -> lstrip s = EmptyString.
Proof.
  induction s as [|c s IH]; simpl; [reflexivity|].
  intros [Hc Hs]%andb_prop. rewrite Hc. auto.
Qed.

Lemma rstrip_all_space s : all_space s = true -> rstrip s = EmptyString.
Proof.
  induction s as [|c s IH]; simpl; [reflexivity|].
  intros [Hc Hs]%andb_prop. now rewrite (IH Hs), Hc.
Qed.

Lemma lstrip_pad ws s : all_space ws = true -> lstrip (ws ++ s) = lstrip s.
Proof.
  induction ws as [|c ws IH]; simpl; [reflexivity|].
  intros [Hc Hs]%andb_prop. rewrite Hc. auto.
Qed.

Lemma rstrip_pad s ws : all_space ws = true -> rstrip (s ++ ws) = rstrip s.
Proof.
  intros Hws. induction s as [|c s IH]; simpl.
  - now apply rstrip_all_space.
  - now rewrite IH.
Qed.

Lemma lstrip_app_pad s ws :
  all_space ws = true ->
  lstrip (s ++ ws) = if all_space s then EmptyString else lstrip s ++ ws.
Proof.
  intros Hws. induction s as [|c s IH]; simpl.
  - now apply lstrip_all_space.
  - destruct (isspace c); [exact IH | reflexivity].
Qed.

(** White space around a string does not change what [strip] returns. *)
Lemma strip_pad ws1 s ws2 :
  all_space ws1 = true -> all_space ws2 = true ->
  strip (ws1 ++ s ++ ws2) = strip s.
Proof.
  intros H1 H2. unfold strip.
  rewrite lstrip_pad, lstrip_app_pad by assumption.
  destruct (all_space s) eqn:Hs.
  - now rewrite lstrip_all_space.
  - now apply rstrip_pad.
Qed.

Lemma in_tuple_sentinels x :
  in_tuple x sentinels = true <->
  x = "null" \/ x = "none" \/ x = EmptyString \/ x = "n/a" \/ x = "unknown".
Proof.
  unfold in_tuple, sentinels. simpl.
  rewrite !orb_true_iff, !String.eqb_eq. intuition discriminate.
Qed.

End PyStrFacts.

(** ** The profile dictionary *)

Lemma dict_get_set_eq (d : profile) k v : dict_get (dict_set d k v) k = Some v.
Proof.
  induction d as [|[k' v'] d IH]; simpl.
  - now rewrite String.eqb_refl.
  - destruct (String.eqb k' k) eqn:Hk; simpl; now rewrite Hk.
Qed.

Lemma dict_get_set_ne (d : profile) k k' v :
  k <> k' -> dict_get (dict_set d k v) k' = dict_get d k'.
Proof.
  intros Hne. induction d as [|[k0 v0] d IH]; simpl.
  - destruct (String.eqb k k') eqn:Hk; [|reflexivity].
    apply String.eqb_eq in Hk. contradiction.
  - destruct (String.eqb k0 k) eqn:Hk; simpl.
    + apply String.eqb_eq in Hk. subst k0.
      destruct (String.eqb k k') eqn:Hk'; [|reflexivity].
      apply String.eqb_eq in Hk'. contradiction.
    + now rewrite IH.
Qed.

(** Storing under a key that is present keeps the number of keys; a new key
    adds one.  Keys stay unique. *)
Lemma dict_set_length (d : profile) k v :
  length (dict_set d k v) =
  match dict_get d k with Some _ => length d | None => S (length d) end.
Proof.
  induction d as [|[k' v'] d IH]; simpl; [reflexivity|].
  destruct (String.eqb k' k); simpl; [reflexivity|].
  rewrite IH. now destruct (dict_get d k).
Qed.

Lemma dict_set_keys (d : profile) k v :
  map fst (dict_set d k v) =
  match dict_get d k with Some _ => map fst d | None => (map fst d ++ [k])%list end.
Proof.
  induction d as [|[k' v'] d IH]; simpl; [reflexivity|].
  destruct (String.eqb k' k); simpl; [reflexivity|].
  rewrite IH. now destruct (dict_get d k).
Qed.

Lemma dict_get_None (d : profile) k : dict_get d k = None <-> ~ In k (map fst d).
Proof.
  induction d as [|[k' v'] d IH]; simpl; [tauto|].
  destruct (String.eqb k' k) eqn:Hk.
  - apply String.eqb_eq in Hk. split; [discriminate | tauto].
  - apply String.eqb_neq in Hk. rewrite IH. tauto.
Qed.

Lemma dict_set_NoDup (d : profile) k v :
  List.NoDup (map fst d) -> List.NoDup (map fst (dict_set d k v)).
Proof.
  intros Hd. rewrite dict_set_keys.
  destruct (dict_get d k) eqn:Hg; [assumption|].
  apply dict_get_None in Hg.
  apply NoDup_ListNoDup. apply NoDup_ListNoDup in Hd.
  apply NoDup_app. repeat split; [assumption | | apply NoDup_singleton].
  intros x Hx Hx'. apply list_elem_of_singleton in Hx'. subst x.
  apply Hg. now apply list_elem_of_In.
Qed.

(** ** Fact merger *)

Section MergerFacts.

Variable py_repr : pyval -> string.

#[local] Abbreviation passes_filter := (passes_filter py_repr).
#[local] Abbreviation merge_pair := (merge_pair py_repr).
#[local] Abbreviation merge_facts := (merge_facts py_repr).
#[local] Abbreviation py_str := (py_str py_repr).

(** A value that passes the guard has a non-empty trimmed form. *)
Lemma passes_filter_nonempty v :
  passes_filter v = true -> PyStr.strip (py_str v) <> EmptyString.
Proof.
  unfold passes_filter. intros [_ Hs]%andb_prop Hempty.
  rewrite Hempty in Hs. discriminate Hs.
Qed.

(** For a [str] candidate the guard is the sentinel test alone: the empty
    string is a sentinel. *)
Lemma passes_filter_str s :
  passes_filter (PyStr s) =
  negb (in_tuple (PyStr.lower (PyStr.strip s)) sentinels).
Proof.
  unfold passes_filter. simpl. destruct s; reflexivity.
Qed.

Lemma merge_pair_rejected P k v : passes_filter v = false -> merge_pair P k v = P.
Proof. unfold merge_pair. now intros ->. Qed.

Lemma merge_pair_new P k v :
  passes_filter v = true -> dict_get P k = None ->
  merge_pair P k v = dict_set P k (PyStr.strip (py_str v)).
Proof. unfold merge_pair. now intros -> ->. Qed.

Lemma merge_pair_present P k v old :
  passes_filter v = true -> dict_get P k = Some old ->
  merge_pair P k v =
  if (String.length old <? String.length (PyStr.strip (py_str v)))%nat
  then dict_set P k (PyStr.strip (py_str v)) else P.
Proof.
  intros Hf Hg. unfold merge_pair. rewrite Hf, Hg. simpl.
  destruct old as [|c old]; simpl; [|reflexivity].
  apply passes_filter_nonempty in Hf.
  destruct (PyStr.strip (py_str v)); [contradiction | reflexivity].
Qed.

(** The loop only ever stores non-empty strings and keeps keys unique. *)
Lemma merge_pair_NoDup P k v :
  List.NoDup (map fst P) -> List.NoDup (map fst (merge_pair P k v)).
Proof.
  intros HP. unfold merge_pair.
  destruct (passes_filter _); [|assumption].
  simpl. destruct (_ || _); [now apply dict_set_NoDup | assumption].
Qed.

Lemma merge_facts_nil P : merge_facts P [] = P.
Proof. reflexivity. Qed.

Lemma merge_facts_cons P k v kvs :
  merge_facts P ((k, v) :: kvs) = merge_facts (merge_pair P k v) kvs.
Proof. reflexivity. Qed.

Lemma merge_facts_rejected P kvs :
  Forall (fun kv => passes_filter (snd kv) = false) kvs -> merge_facts P kvs = P.
Proof.
  induction 1 as [|[k v] kvs Hv _ IH]; [reflexivity|].
  rewrite merge_facts_cons, merge_pair_rejected; assumption.
Qed.

(** C1. Overwrite only if longer: when key [k] holds [old] and the candidate
    [v] passes the guard of the loop, the merge stores the trimmed [v] under
    [k] exactly when it has strictly more characters than [old], and leaves
    the profile as it is on equal or shorter length. *)
Theorem overwrite_only_if_longer P k old v :
  dict_get P k = Some old ->
  passes_filter v = true ->
  let clean_v := PyStr.strip (py_str v) in
  (String.length old < String.length clean_v ->
     merge_pair P k v = dict_set P k clean_v
     /\ dict_get (merge_pair P k v) k = Some clean_v)
  /\ (String.length clean_v <= String.length old ->
        merge_pair P k v = P /\ dict_get (merge_pair P k v) k = Some old)
  /\ (merge_pair P k v <> P -> String.length old < String.length clean_v)
  /\ merge_facts P [(k, v)] = merge_pair P k v
  /\ merge_facts [("city", "LHR")] [("city", PyStr "Lahore")]
     = [("city", "Lahore")]
  /\ merge_facts [("city", "LHR")] [("city", PyStr "LHR")] = [("city", "LHR")]
  /\ merge_facts [("city", "LHR")] [("city", PyStr "X")] = [("city", "LHR")].
Proof.
  intros Hg Hf clean_v.
  pose proof (merge_pair_present P k v old Hf Hg) as Hm. fold clean_v in Hm.
  destruct (Nat.ltb_spec (String.length old) (String.length clean_v)) as [Hlt|Hge];
    rewrite Hm; repeat split; intros; try lia; try contradiction;
    auto using dict_get_set_eq.
Qed.

(** C3. Sentinel rejection: a candidate whose trimmed, lower-cased string
    form is empty or one of null, none, n/a, unknown leaves the profile
    unchanged, whatever the casing of the candidate and the white space
    around it. *)
Theorem sentinel_rejection P k v :
  in_tuple (PyStr.lower (PyStr.strip (py_str v))) sentinels = true ->
  merge_pair P k v = P
  /\ dict_get (merge_pair P k v) k = dict_get P k
  /\ merge_facts P [(k, v)] = P
  /\ forall ws1 ws2,
       PyStr.all_space ws1 = true -> PyStr.all_space ws2 = true ->
       merge_pair P k (PyStr (ws1 ++ py_str v ++ ws2)) = P.
Proof.
  intros Hin.
  assert (Hrej : merge_pair P k v = P).
  { apply merge_pair_rejected. unfold passes_filter.
    rewrite Hin. apply andb_false_r. }
  repeat split.
  - exact Hrej.
  - now rewrite Hrej.
  - exact Hrej.
  - intros ws1 ws2 H1 H2. apply merge_pair_rejected.
    rewrite passes_filter_str, PyStrFacts.strip_pad by assumption.
    now rewrite Hin.
Qed.

(** C9. A falsy candidate ([None], [False], [0], [0.0], an empty string,
    list or dictionary) is rejected by the first conjunct of the guard,
    before its string form is looked at: the profile stays as it is, also
    for [0] and [False], whose string forms are no sentinels. *)
Theorem falsy_rejected P k v :
  truthy v = false ->
  passes_filter v = false
  /\ merge_pair P k v = P
  /\ merge_facts P [(k, v)] = P
  /\ (truthy (PyInt 0) = false
      /\ in_tuple (PyStr.lower (PyStr.strip (py_str (PyInt 0)))) sentinels = false)
  /\ (truthy (PyBool false) = false
      /\ in_tuple (PyStr.lower (PyStr.strip (py_str (PyBool false)))) sentinels = false).
Proof.
  intros Hv.
  assert (Hf : passes_filter v = false)
    by (unfold passes_filter; now rewrite Hv).
  repeat split; try reflexivity; try assumption;
    now apply merge_pair_rejected.
Qed.

End MergerFacts.

(** ** Progress estimate *)

Lemma progress_eq k : progress k = Z.min 100 (Z.of_nat k * 100 / 18).
Proof.
  unfold progress, py_int. f_equal.
  cbn [Qdiv Qmult Qinv inject_Z Qnum Qden].
  change (Qnum (Qinv 18)) with 1%Z. change (Qden (Qinv 18)) with 18%positive.
  change (Qnum 100) with 100%Z. change (Qden 100) with 1%positive.
  rewrite Z.mul_1_r.
  change (Z.pos (1 * 18 * 1)) with 18%Z.
  apply Z.quot_div_nonneg; lia.
Qed.

Lemma progress_floor k :
  progress k = Qfloor (Qmin 100 ((inject_Z (Z.of_nat k) / 18) * 100)).
Proof.
  rewrite progress_eq.
  set (q := ((inject_Z (Z.of_nat k) / 18) * 100)%Q).
  assert (Hfl : Qfloor q = (Z.of_nat k * 100 / 18)%Z).
  { unfold q, Qfloor. cbn [Qdiv Qmult Qinv inject_Z Qnum Qden].
    change (Qnum (Qinv 18)) with 1%Z. change (Qden (Qinv 18)) with 18%positive.
    change (Qnum 100) with 100%Z. change (Qden 100) with 1%positive.
    now rewrite Z.mul_1_r. }
  rewrite <- Hfl.
  destruct (Qlt_le_dec 100 q) as [Hgt|Hle].
  - apply Qlt_le_weak in Hgt.
    rewrite (Qfloor_comp _ _ (Q.min_l _ _ Hgt)).
    apply Qfloor_resp_le in Hgt. change (Qfloor 100) with 100%Z in *. lia.
  - rewrite (Qfloor_comp _ _ (Q.min_r _ _ Hle)).
    apply Qfloor_resp_le in Hle. change (Qfloor 100) with 100%Z in *. lia.
Qed.

(** C4. The progress of a profile with [key_count] keys is
    floor(min(100, (key_count / 18) * 100)); it is an integer between 0 and
    100, it is 0 for the empty profile and 100 from 18 keys on, and it does
    not decrease when the number of keys grows. *)
Theorem progress_estimate (P : profile) :
  let key_count := length P in
  progress key_count
    = Qfloor (Qmin 100 ((inject_Z (Z.of_nat key_count) / 18) * 100))
  /\ (0 <= progress key_count <= 100)%Z
  /\ progress (length (@nil (string * string))) = 0%Z
  /\ (18 <= key_count -> progress key_count = 100%Z)
  /\ (forall P' : profile,
        key_count <= length P' -> (progress key_count <= progress (length P'))%Z).
Proof.
  intros key_count. split; [apply progress_floor|].
  rewrite !progress_eq. repeat split.
  - apply Z.min_glb; [lia|]. apply Z.div_pos; lia.
  - apply Z.le_min_l.
  - intros Hk. apply Z.min_l.
    apply Z.div_le_lower_bound; lia.
  - intros P' Hle. rewrite progress_eq.
    apply Z.min_le_compat_l, Z.div_le_mono; lia.
Qed.

(** On every profile of up to 4096 keys the binary64 evaluation of the
    expression gives the same number as the evaluation over the rationals. *)
Lemma progress_binary64 k : k <= 4096 -> Binary64.progress k = progress k.
Proof.
  intros Hk.
  assert (Hall : forallb (fun n => (Binary64.progress n =? progress n)%Z)
                   (seq 0 4097) = true) by (vm_compute; reflexivity).
  rewrite forallb_forall in Hall.
  apply Z.eqb_eq, Hall, in_seq. lia.
Qed.

(** ** The monad *)

Lemma bind_run {A B} (c : M A) (k : A -> M B) w :
  (c ≫= k) w =
  match c w with
  | (Returned a, w') => k a w'
  | (Raised e, w') => (Raised e, w')
  end.
Proof. reflexivity. Qed.

Lemma keeps_db_ret {A} (a : A) : keeps_db (mret a).
Proof. intros w. reflexivity. Qed.

Lemma keeps_db_raise {A} e : keeps_db (@raise A e).
Proof. intros w. reflexivity. Qed.

Lemma keeps_db_log ev : keeps_db (log ev).
Proof. intros w. reflexivity. Qed.

Lemma keeps_db_bind {A B} (c : M A) (k : A -> M B) :
  keeps_db c -> (forall a, keeps_db (k a)) -> keeps_db (c ≫= k).
Proof.
  intros Hc Hk w. rewrite bind_run. specialize (Hc w).
  destruct (c w) as [[a|e] w']; simpl in *; [|assumption].
  now rewrite Hk.
Qed.

(** ** The store *)

Section StoreFacts.

Variable E : env.

Lemma execute_run st w :
  execute E st w =
  if sqlite_fault E st then (Raised OperationalError, w) else (Returned tt, w).
Proof. unfold execute. now destruct (sqlite_fault E st). Qed.

Lemma get_session_run sid w :
  get_session E sid w =
  if sqlite_fault E SqlSelect then (Raised OperationalError, w)
  else match db w !! sid with
       | Some r =>
           (Returned (Session sid (row_chat_history r) (row_profile_data r)
                        (row_is_complete r)), w)
       | None =>
           if sqlite_fault E SqlInsert then (Raised OperationalError, w)
           else (Returned (Session sid [] [] false),
                 World (<[sid := Row [] [] false (current_timestamp E)]> (db w))
                   (trace w))
       end.
Proof.
  unfold get_session. rewrite bind_run, execute_run.
  destruct (sqlite_fault E SqlSelect); [reflexivity|].
  rewrite bind_run. unfold read_db at 1.
  destruct (db w !! sid) as [r|]; [reflexivity|].
  rewrite bind_run, execute_run.
  now destruct (sqlite_fault E SqlInsert).
Qed.

Lemma save_session_run sid p h c w :
  save_session E sid p h c w =
  if sqlite_fault E SqlUpdate then (Raised OperationalError, w)
  else match db w !! sid with
       | Some r =>
           (Returned tt,
            World (<[sid := Row h p c (row_created_at r)]> (db w)) (trace w))
       | None => (Returned tt, w)
       end.
Proof.
  unfold save_session. rewrite bind_run, execute_run.
  destruct (sqlite_fault E SqlUpdate); [reflexivity|].
  rewrite bind_run. unfold read_db at 1.
  now destruct (db w !! sid).
Qed.

Lemma delete_session_run sid w :
  delete_session E sid w =
  if sqlite_fault E SqlDelete then (Raised OperationalError, w)
  else (Returned "Session deleted", World (delete sid (db w)) (trace w)).
Proof.
  unfold delete_session. rewrite bind_run, execute_run.
  now destruct (sqlite_fault E SqlDelete).
Qed.

Lemma keeps_db_get_all_sessions : keeps_db (get_all_sessions E).
Proof.
  intros w. unfold get_all_sessions. rewrite bind_run, execute_run.
  now destruct (sqlite_fault E SqlSelectAll).
Qed.

(** [get_session] adds at most the row of [sid]; rows that exist stay. *)
Lemma get_session_lookup sid sid' w r :
  db w !! sid' = Some r -> db (snd (get_session E sid w)) !! sid' = Some r.
Proof.
  intros Hr. rewrite get_session_run.
  destruct (sqlite_fault E SqlSelect); [assumption|].
  destruct (db w !! sid) as [r0|] eqn:Hsid; [assumption|].
  destruct (sqlite_fault E SqlInsert); [assumption|]. simpl.
  rewrite lookup_insert_ne; [assumption | congruence].
Qed.

(** The session endpoints have no handler: a fault of the driver leaves
    them as an exception. *)
Lemma get_session_data_fault sid w :
  sqlite_fault E SqlSelect = true ->
  get_session_data E sid w = (Raised OperationalError, w).
Proof. intros Hf. unfold get_session_data. now rewrite get_session_run, Hf. Qed.

Lemma delete_session_fault sid w :
  sqlite_fault E SqlDelete = true ->
  delete_session E sid w = (Raised OperationalError, w).
Proof. intros Hf. now rewrite delete_session_run, Hf. Qed.

(** C10. Fetching a session that is not stored inserts an empty row for it
    (no turns, no facts, not complete) and returns that empty session. *)
Theorem fetch_creates_session sid w :
  db w !! sid = None ->
  sqlite_fault E SqlSelect = false ->
  sqlite_fault E SqlInsert = false ->
  let result := get_session_data E sid w in
  fst result = Returned (Session sid [] [] false)
  /\ db (snd result) = <[sid := Row [] [] false (current_timestamp E)]> (db w)
  /\ db (snd result) !! sid = Some (Row [] [] false (current_timestamp E))
  /\ (forall sid', sid' <> sid -> db (snd result) !! sid' = db w !! sid')
  /\ trace (snd result) = trace w.
Proof.
  intros Hnone Hsel Hins result. subst result. unfold get_session_data.
  rewrite get_session_run, Hsel, Hnone, Hins. simpl.
  repeat split.
  - apply lookup_insert_eq.
  - intros sid' Hne. now apply lookup_insert_ne.
Qed.

End StoreFacts.

(** ** The chat handler *)

Section ChatFacts.

Variable py_repr : pyval -> string.
Variable json_loads : string -> option pyval.
Variable E : env.

#[local] Abbreviation chat := (chat py_repr json_loads E).
#[local] Abbreviation chat_body := (chat_body py_repr json_loads E).
#[local] Abbreviation next_turn := (next_turn py_repr json_loads E).
#[local] Abbreviation learn := (learn py_repr json_loads E).

Lemma keeps_db_call_model p : keeps_db (call_model E p).
Proof. intros w. reflexivity. Qed.

Lemma keeps_db_extract p : keeps_db (extract json_loads E p).
Proof.
  apply keeps_db_bind; [apply keeps_db_call_model|].
  intros [|text].
  - apply keeps_db_bind; [apply keeps_db_log | intros; apply keeps_db_ret].
  - destruct (json_loads (unfence text)); apply keeps_db_ret.
Qed.

Lemma keeps_db_items v : keeps_db (items v).
Proof. destruct v; first [apply keeps_db_ret | apply keeps_db_raise]. Qed.

Lemma keeps_db_generate p : keeps_db (generate E p).
Proof.
  apply keeps_db_bind; [apply keeps_db_call_model|].
  intros [|text]; [|apply keeps_db_ret].
  apply keeps_db_bind; [apply keeps_db_log | intros; apply keeps_db_ret].
Qed.

Lemma keeps_db_learn request session h : keeps_db (learn request session h).
Proof.
  unfold learn.
  destruct (PyStr.nonempty _); [|apply keeps_db_ret].
  apply keeps_db_bind; [apply keeps_db_extract|]. intros extracted.
  apply keeps_db_bind; [apply keeps_db_items|]. intros kvs.
  apply keeps_db_ret.
Qed.

(** The handler of [chat] changes no state: the world after [chat] is the
    world the body left. *)
Lemma chat_run request w :
  chat request w =
  match chat_body request w with
  | (Returned response, w') => (Returned response, w')
  | (Raised _, w') => (Returned (fallback request), w')
  end.
Proof. reflexivity. Qed.

Lemma chat_body_run request w :
  chat_body request w =
  match get_session E (rq_session_id request) w with
  | (Returned session, w1) =>
      if rq_is_first_message request
      then first_turn E request session w1
      else next_turn request session w1
  | (Raised e, w1) => (Raised e, w1)
  end.
Proof.
  unfold chat_body. rewrite bind_run.
  destruct (get_session E (rq_session_id request) w) as [[session|e] w1];
    [now destruct (rq_is_first_message request) | reflexivity].
Qed.

Lemma first_turn_run request session w :
  first_turn E request session w =
  match save_session E (rq_session_id request) (profile_data session)
          (chat_history session ++ [Turn "assistant" greeting])%list false w with
  | (Returned _, w') =>
      (Returned (Response greeting false 0 (rq_session_id request)), w')
  | (Raised e, w') => (Raised e, w')
  end.
Proof. reflexivity. Qed.

Lemma first_turn_db request session w :
  let w' := snd (first_turn E request session w) in
  db w' = db w
  \/ exists r,
       db w !! rq_session_id request = Some r
       /\ db w' = <[rq_session_id request :=
                      Row (chat_history session ++ [Turn "assistant" greeting])
                        (profile_data session) false (row_created_at r)]> (db w).
Proof.
  intros w'. subst w'. rewrite first_turn_run, save_session_run.
  destruct (sqlite_fault E SqlUpdate); [now left|].
  destruct (db w !! rq_session_id request) as [r|] eqn:Hr; [|now left].
  right. now exists r.
Qed.

(** What a turn after the first does to the table: nothing, or one update
    of the row of its session, which is stored as complete when the loaded
    session was complete. *)
Lemma next_turn_db request session w :
  let w' := snd (next_turn request session w) in
  db w' = db w
  \/ exists r h p c,
       db w !! rq_session_id request = Some r
       /\ db w' = <[rq_session_id request := Row h p c (row_created_at r)]> (db w)
       /\ (is_complete session = true -> c = true).
Proof.
  intros w'. subst w'. unfold next_turn. cbv zeta.
  rewrite bind_run.
  match goal with |- context [learn ?rq ?s ?h w] =>
    pose proof (keeps_db_learn rq s h w) as Hl;
    destruct (learn rq s h w) as [[pd|e] w1]
  end; simpl in Hl; [|now left].
  rewrite bind_run.
  match goal with |- context [generate E ?p w1] =>
    pose proof (keeps_db_generate p w1) as Hg;
    destruct (generate E p w1) as [[ai_reply|e] w2]
  end; simpl in Hg; [|left; simpl; congruence].
  rewrite bind_run, save_session_run.
  destruct (sqlite_fault E SqlUpdate); [left; simpl; congruence|].
  rewrite Hg, Hl.
  destruct (db w !! rq_session_id request) as [r|] eqn:Hr;
    [|left; simpl; congruence].
  right. eexists r, _, _, _. simpl.
  split; [reflexivity|]. split; [reflexivity|].
  intros ->. now destruct (has_stop_signal _).
Qed.

(** A turn destroys no row: every stored session is still stored after it,
    with its creation time; the rows of other sessions are untouched; and
    a turn that is not a flagged first message keeps a complete session
    complete. *)
Lemma chat_rows request w sid r :
  db w !! sid = Some r ->
  exists r',
    db (snd (chat request w)) !! sid = Some r'
    /\ row_created_at r' = row_created_at r
    /\ (sid <> rq_session_id request -> r' = r)
    /\ (rq_is_first_message request = false ->
        row_is_complete r = true -> row_is_complete r' = true).
Proof.
  intros Hr.
  assert (Hw : snd (chat request w) = snd (chat_body request w)).
  { rewrite chat_run. now destruct (chat_body request w) as [[?|?] ?]. }
  rewrite Hw, chat_body_run. clear Hw.
  pose proof (get_session_lookup E (rq_session_id request) sid w r Hr) as Hkeep.
  pose proof (get_session_run E (rq_session_id request) w) as Hrun.
  destruct (get_session E (rq_session_id request) w) as [[session|e] w1];
    simpl in Hkeep; [|exists r; simpl; auto].
  assert (Hc : sid = rq_session_id request ->
               is_complete session = row_is_complete r).
  { intros ->. rewrite Hr in Hrun.
    destruct (sqlite_fault E SqlSelect); [discriminate|].
    now inversion Hrun. }
  clear Hrun.
  destruct (rq_is_first_message request).
  - destruct (first_turn_db request session w1) as [Hdb | (r1 & Hr1 & Hdb)];
      rewrite Hdb.
    + exists r. auto.
    + destruct (decide (sid = rq_session_id request)) as [->|Hne].
      * rewrite lookup_insert_eq. eexists. split; [reflexivity|].
        simpl. rewrite Hr1 in Hkeep. inversion Hkeep; subst r1.
        repeat split; [contradiction | discriminate].
      * rewrite lookup_insert_ne by congruence. exists r. auto.
  - destruct (next_turn_db request session w1)
      as [Hdb | (r1 & h & p & c & Hr1 & Hdb & Hcomplete)]; rewrite Hdb.
    + exists r. auto.
    + destruct (decide (sid = rq_session_id request)) as [->|Hne].
      * rewrite lookup_insert_eq. eexists. split; [reflexivity|].
        simpl. rewrite Hr1 in Hkeep. inversion Hkeep; subst r1.
        repeat split; [contradiction|].
        intros _ Htrue. apply Hcomplete. now rewrite Hc.
      * rewrite lookup_insert_ne by congruence. exists r. auto.
Qed.

Lemma generate_returns p w :
  exists ai_reply w', generate E p w = (Returned ai_reply, w').
Proof.
  unfold generate. rewrite bind_run. simpl.
  destruct (generate_content E p); simpl; eauto.
Qed.

(** A turn after the first on a complete session answers [complete]
    whenever it gets to its [return]. *)
Lemma next_turn_complete request session w response :
  is_complete session = true ->
  fst (next_turn request session w) = Returned response ->
  rs_is_complete response = true.
Proof.
  intros Hc. unfold next_turn. cbv zeta. rewrite bind_run.
  match goal with |- context [learn ?rq ?s ?h w] =>
    destruct (learn rq s h w) as [[pd|e] w1]
  end; [|discriminate].
  rewrite bind_run.
  match goal with |- context [generate E ?p w1] =>
    destruct (generate E p w1) as [[ai_reply|e] w2]
  end; [|discriminate].
  rewrite bind_run.
  match goal with |- context [save_session E ?a ?b ?c ?d w2] =>
    destruct (save_session E a b c d w2) as [[[]|e] w3]
  end; [|discriminate].
  simpl. intros [= <-]. simpl. rewrite Hc. now destruct (has_stop_signal _).
Qed.

(** When the UPDATE faults, a turn after the first raises. *)
Lemma next_turn_update_fault request session w :
  sqlite_fault E SqlUpdate = true ->
  exists e, fst (next_turn request session w) = Raised e.
Proof.
  intros Hf. unfold next_turn. cbv zeta. rewrite bind_run.
  match goal with |- context [learn ?rq ?s ?h w] =>
    destruct (learn rq s h w) as [[pd|e] w1]
  end; [|eauto].
  rewrite bind_run.
  match goal with |- context [generate E ?p w1] =>
    destruct (generate_returns p w1) as (ai_reply & w2 & ->)
  end.
  rewrite bind_run, save_session_run, Hf. eauto.
Qed.

(** The two fixed responses report [complete = false]: the greeting of a
    flagged first message and the fallback of the handler. *)
Lemma chat_fixed_responses request w response :
  rq_is_first_message request = true
  \/ (exists e, fst (chat_body request w) = Raised e) ->
  fst (chat request w) = Returned response ->
  rs_is_complete response = false.
Proof.
  rewrite chat_run, chat_body_run, get_session_run.
  intros [Hfirst | [e He]].
  - rewrite Hfirst.
    destruct (sqlite_fault E SqlSelect); [simpl; now intros [= <-]|].
    destruct (db w !! rq_session_id request) as [r|] eqn:Hr.
    + rewrite first_turn_run, save_session_run, Hr.
      destruct (sqlite_fault E SqlUpdate); simpl; now intros [= <-].
    + destruct (sqlite_fault E SqlInsert); [simpl; now intros [= <-]|].
      rewrite first_turn_run, save_session_run.
      destruct (sqlite_fault E SqlUpdate); [simpl; now intros [= <-]|].
      simpl. rewrite lookup_insert_eq. simpl. now intros [= <-].
  - revert He.
    match goal with |- fst ?b = _ -> _ => destruct b as [[resp|e'] w'] end;
      simpl; [discriminate|]. now intros _ [= <-].
Qed.

(** C5. A turn flagged as first message calls the model neither for
    extraction nor for generation and answers progress 0 and complete
    false; when the database does not fault it answers the fixed greeting
    and stores the transcript extended by exactly that one assistant turn,
    next to the unchanged profile. *)
Theorem first_message_short_circuit request w :
  rq_is_first_message request = true ->
  let sid := rq_session_id request in
  let result := chat request w in
  let before :=
    match db w !! sid with
    | Some r => (row_chat_history r, row_profile_data r)
    | None => ([], [])
    end in
  trace (snd result) = trace w
  /\ (exists response,
        fst result = Returned response
        /\ rs_progress response = 0%Z
        /\ rs_is_complete response = false
        /\ rs_session_id response = sid)
  /\ (sqlite_fault E SqlSelect = false ->
      sqlite_fault E SqlInsert = false ->
      sqlite_fault E SqlUpdate = false ->
      fst result = Returned (Response greeting false 0 sid)
      /\ (exists r',
            db (snd result) !! sid = Some r'
            /\ row_chat_history r'
               = (fst before ++ [Turn "assistant" greeting])%list
            /\ row_profile_data r' = snd before)
      /\ forall sid', sid' <> sid -> db (snd result) !! sid' = db w !! sid').
Proof.
  intros Hfirst sid result before. subst sid result before.
  rewrite chat_run, chat_body_run, Hfirst, get_session_run.
  destruct (sqlite_fault E SqlSelect).
  { simpl. split; [reflexivity|]. split; [|discriminate].
    eexists. repeat split. }
  destruct (db w !! rq_session_id request) as [r|] eqn:Hr.
  - rewrite first_turn_run, save_session_run.
    destruct (sqlite_fault E SqlUpdate).
    { simpl. split; [reflexivity|]. split; [|discriminate].
      eexists. repeat split. }
    rewrite Hr. simpl. split; [reflexivity|].
    split; [eexists; repeat split|]. intros _ _ _.
    split; [reflexivity|]. split.
    + eexists. rewrite lookup_insert_eq. repeat split.
    + intros sid' Hne. now apply lookup_insert_ne.
  - destruct (sqlite_fault E SqlInsert).
    { simpl. split; [reflexivity|]. split; [|discriminate].
      eexists. repeat split. }
    rewrite first_turn_run, save_session_run.
    destruct (sqlite_fault E SqlUpdate).
    { simpl. split; [reflexivity|]. split; [|discriminate].
      eexists. repeat split. }
    simpl. rewrite lookup_insert_eq. simpl. split; [reflexivity|].
    split; [eexists; repeat split|]. intros _ _ _.
    split; [reflexivity|]. split.
    + eexists. rewrite lookup_insert_eq. repeat split.
    + intros sid' Hne. rewrite !lookup_insert_ne by congruence. reflexivity.
Qed.

(** C6. Whatever exception leaves the body of the turn, [chat] catches it
    and returns the fallback response: the apology, complete false,
    progress 0 and the session id of the request.  The caller gets a
    response from every turn. *)
Theorem chat_catches_every_fault request w :
  (exists response, fst (chat request w) = Returned response)
  /\ (forall e,
        fst (chat_body request w) = Raised e ->
        fst (chat request w)
        = Returned (Response apology false 0 (rq_session_id request)))
  /\ (forall response,
        fst (chat_body request w) = Returned response ->
        fst (chat request w) = Returned response)
  /\ (forall e, fst (chat request w) <> Raised e).
Proof.
  rewrite chat_run.
  destruct (chat_body request w) as [[response|e] w']; simpl.
  - split; [eauto|]. split; [discriminate|]. split; [auto | discriminate].
  - split; [eauto|]. split; [reflexivity|]. split; discriminate.
Qed.

(** C7, as the handler has it.  When the database driver raises during a
    turn (on the SELECT or the INSERT of the load, or on the UPDATE of the
    save), [chat] returns the fallback response, which has the shape of
    every other response; no failure reaches the caller. *)
Theorem storage_fault_gets_apology request w :
  sqlite_fault E SqlSelect = true
  \/ (db w !! rq_session_id request = None /\ sqlite_fault E SqlInsert = true)
  \/ sqlite_fault E SqlUpdate = true ->
  fst (chat request w) = Returned (fallback request)
  /\ (forall e, fst (chat request w) <> Raised e).
Proof.
  intros Hfault.
  assert (Hraised : exists e, fst (chat_body request w) = Raised e).
  { rewrite chat_body_run, get_session_run.
    destruct (sqlite_fault E SqlSelect) eqn:Hsel; [simpl; eauto|].
    destruct (db w !! rq_session_id request) as [r|] eqn:Hr.
    - destruct Hfault as [? | [[? _] | Hupd]]; try discriminate.
      destruct (rq_is_first_message request).
      + rewrite first_turn_run, save_session_run, Hupd. simpl. eauto.
      + now apply next_turn_update_fault.
    - destruct (sqlite_fault E SqlInsert) eqn:Hins; [simpl; eauto|].
      destruct Hfault as [? | [[_ ?] | Hupd]]; try discriminate.
      destruct (rq_is_first_message request).
      + rewrite first_turn_run, save_session_run, Hupd. simpl. eauto.
      + now apply next_turn_update_fault. }
  destruct Hraised as [e He]. rewrite chat_run.
  destruct (chat_body request w) as [[response|e'] w']; simpl in *;
    [discriminate|]. split; [reflexivity | discriminate].
Qed.

End ChatFacts.

(** ** Sessions over many operations *)

Section SessionFacts.

Variable py_repr : pyval -> string.
Variable json_loads : string -> option pyval.

#[local] Abbreviation chat := (chat py_repr json_loads).
#[local] Abbreviation chat_body := (chat_body py_repr json_loads).
#[local] Abbreviation chat_turns := (chat_turns py_repr json_loads).
#[local] Abbreviation perform := (perform py_repr json_loads).

(** A turn after the first that returns from the body of the [try] reports
    the stored flag of a complete session. *)
Lemma chat_body_complete E request w r response :
  db w !! rq_session_id request = Some r ->
  row_is_complete r = true ->
  rq_is_first_message request = false ->
  fst (chat_body E request w) = Returned response ->
  fst (chat E request w) = Returned response
  /\ rs_is_complete response = true.
Proof.
  intros Hr Hc Hfirst Hbody. split.
  - rewrite chat_run.
    destruct (chat_body _ _ _) as [[?|?] ?]; simpl in *;
      [assumption | discriminate].
  - revert Hbody. rewrite chat_body_run, get_session_run, Hfirst, Hr.
    destruct (sqlite_fault E SqlSelect); [discriminate|].
    now apply next_turn_complete.
Qed.

(** C2, as the handler has it.  Once a session is stored as complete, it
    stays stored as complete through every sequence of turns (of this and
    of other sessions) in which no turn of this session is flagged as first
    message, also when no reply carries a stop signal; and after such a
    sequence every turn of the session that is not flagged as first message
    and returns from the body of the [try] answers complete.  The greeting
    of a flagged first message and the fallback of the handler answer
    complete false. *)
Theorem completion_kept_by_later_turns ts w sid r :
  db w !! sid = Some r ->
  row_is_complete r = true ->
  Forall (fun t : env * ChatRequest =>
            rq_session_id (snd t) = sid -> rq_is_first_message (snd t) = false)
    ts ->
  (exists r', db (chat_turns ts w) !! sid = Some r'
              /\ row_is_complete r' = true
              /\ row_created_at r' = row_created_at r)
  /\ (forall E request response,
        rq_session_id request = sid ->
        rq_is_first_message request = false ->
        fst (chat_body E request (chat_turns ts w)) = Returned response ->
        fst (chat E request (chat_turns ts w)) = Returned response
        /\ rs_is_complete response = true)
  /\ (forall E request response,
        rq_is_first_message request = true
        \/ (exists e, fst (chat_body E request (chat_turns ts w)) = Raised e) ->
        fst (chat E request (chat_turns ts w)) = Returned response ->
        rs_is_complete response = false).
Proof.
  intros Hr Hc Hts.
  assert (Hkept : exists r', db (chat_turns ts w) !! sid = Some r'
                             /\ row_is_complete r' = true
                             /\ row_created_at r' = row_created_at r).
  { revert w r Hr Hc.
    induction Hts as [|[E request] ts Ht _ IH]; intros w r Hr Hc; simpl.
    - exists r. auto.
    - destruct (chat_rows py_repr json_loads E request w sid r Hr)
        as (r1 & Hr1 & Hcreated & Hother & Hcomplete).
      assert (Hc1 : row_is_complete r1 = true).
      { destruct (decide (sid = rq_session_id request)) as [Heq|Hne].
        - apply Hcomplete; [|assumption]. now apply Ht.
        - now rewrite (Hother Hne). }
      destruct (IH _ _ Hr1 Hc1) as (r' & Hr' & Hc' & Hcr').
      exists r'. repeat split; [assumption | assumption | congruence]. }
  split; [exact Hkept|]. split.
  - destruct Hkept as (r' & Hr' & Hc' & _).
    intros E request response <- Hfirst Hbody.
    now apply (chat_body_complete E request _ r').
  - intros E request response. apply chat_fixed_responses.
Qed.

(** C8, as the service has it.  A stored session is still stored, with its
    creation time, after every operation other than the start of the
    service and the deletion of that session: no turn, fetch, listing or
    deletion of another session removes it.  The start of the service
    empties the table, and a deletion that does not fault removes the row
    of its session. *)
Theorem only_delete_and_startup_remove E op w sid r :
  db w !! sid = Some r ->
  op <> Startup ->
  op <> DeleteSession sid ->
  (exists r', db (perform E op w) !! sid = Some r'
              /\ row_created_at r' = row_created_at r)
  /\ db (perform E Startup w) = ∅
  /\ (sqlite_fault E SqlDelete = false ->
      db (perform E (DeleteSession sid) w) !! sid = None).
Proof.
  intros Hr Hstart Hdel. split; [|split].
  - destruct op as [|request|sid'| |sid']; simpl.
    + contradiction.
    + destruct (chat_rows py_repr json_loads E request w sid r Hr)
        as (r' & Hr' & Hcreated & _). eauto.
    + exists r. split; [|reflexivity]. now apply get_session_lookup.
    + exists r. split; [|reflexivity]. now rewrite keeps_db_get_all_sessions.
    + exists r. split; [|reflexivity]. rewrite delete_session_run.
      destruct (sqlite_fault E SqlDelete); [assumption|]. simpl.
      rewrite lookup_delete_ne; [assumption | congruence].
  - reflexivity.
  - intros Hf. simpl. rewrite delete_session_run, Hf. simpl.
    apply lookup_delete_eq.
Qed.

End SessionFacts.

(** ** Instances and counterexamples *)

Lemma overwrite_only_if_longer_witness :
  dict_get [("city", "LHR")] "city" = Some "LHR"
  /\ passes_filter Sample.py_repr (PyStr "Lahore") = true
  /\ merge_pair Sample.py_repr [("city", "LHR")] "city" (PyStr "Lahore")
     = [("city", "Lahore")].
Proof.
  split; [reflexivity|]. split; [reflexivity|].
  refine (proj1 (proj1 (overwrite_only_if_longer Sample.py_repr
                          [("city", "LHR")] "city" "LHR" (PyStr "Lahore")
                          eq_refl eq_refl) _)).
  simpl. lia.
Defined.

Lemma sentinel_rejection_witness :
  in_tuple (PyStr.lower (PyStr.strip (py_str Sample.py_repr (PyStr "  UnKnown "))))
    sentinels = true
  /\ merge_pair Sample.py_repr [("city", "LHR")] "city" (PyStr "  UnKnown ")
     = [("city", "LHR")].
Proof.
  split; [reflexivity|].
  apply (sentinel_rejection Sample.py_repr [("city", "LHR")] "city"
           (PyStr "  UnKnown ")).
  reflexivity.
Defined.

Lemma falsy_rejected_witness :
  truthy (PyInt 0) = false
  /\ merge_pair Sample.py_repr [("city", "LHR")] "age" (PyInt 0)
     = [("city", "LHR")].
Proof.
  split; [reflexivity|].
  apply (falsy_rejected Sample.py_repr [("city", "LHR")] "age" (PyInt 0)).
  reflexivity.
Defined.

Lemma progress_estimate_witness :
  18 <= length Sample.eighteen_facts
  /\ progress (length Sample.eighteen_facts) = 100%Z.
Proof.
  split; [simpl; lia|].
  apply (progress_estimate Sample.eighteen_facts). simpl. lia.
Defined.

Lemma fetch_creates_session_witness :
  db Sample.empty_world !! "new" = None
  /\ fst (get_session_data Sample.healthy "new" Sample.empty_world)
     = Returned (Session "new" [] [] false).
Proof.
  split; [reflexivity|].
  apply (fetch_creates_session Sample.healthy "new" Sample.empty_world);
    reflexivity.
Defined.

Lemma first_message_short_circuit_witness :
  rq_is_first_message Sample.first_message = true
  /\ trace (snd (chat Sample.py_repr Sample.json_loads Sample.healthy
                   Sample.first_message Sample.empty_world)) = [].
Proof.
  split; [reflexivity|].
  apply (first_message_short_circuit Sample.py_repr Sample.json_loads
           Sample.healthy Sample.first_message Sample.empty_world).
  reflexivity.
Defined.

Lemma chat_catches_every_fault_witness :
  fst (chat_body Sample.py_repr Sample.json_loads Sample.odd_extraction
         Sample.later_message Sample.empty_world) = Raised AttributeError
  /\ fst (chat Sample.py_repr Sample.json_loads Sample.odd_extraction
            Sample.later_message Sample.empty_world)
     = Returned (Response apology false 0 "s").
Proof.
  assert (H : fst (chat_body Sample.py_repr Sample.json_loads
                     Sample.odd_extraction Sample.later_message
                     Sample.empty_world) = Raised AttributeError)
    by (vm_compute; reflexivity).
  split; [exact H|].
  exact (proj1 (proj2 (chat_catches_every_fault Sample.py_repr Sample.json_loads
                         Sample.odd_extraction Sample.later_message
                         Sample.empty_world)) AttributeError H).
Defined.

Lemma storage_fault_gets_apology_witness :
  sqlite_fault Sample.update_fails SqlUpdate = true
  /\ fst (chat Sample.py_repr Sample.json_loads Sample.update_fails
            Sample.later_message Sample.finished_world)
     = Returned (fallback Sample.later_message).
Proof.
  split; [reflexivity|].
  apply (storage_fault_gets_apology Sample.py_repr Sample.json_loads
           Sample.update_fails Sample.later_message Sample.finished_world).
  right. right. reflexivity.
Defined.

(** The claim as the specification words it fails on a save fault: the
    caller gets the apology as an ordinary response. *)
Lemma storage_fault_propagates_counterexample :
  ~ storage_fault_propagates Sample.py_repr Sample.json_loads
      Sample.update_fails Sample.later_message Sample.finished_world.
Proof.
  intros H. destruct H as [e He]; [vm_compute; reflexivity|].
  vm_compute in He. discriminate He.
Qed.

Lemma completion_kept_by_later_turns_witness :
  db Sample.finished_world !! "s" = Some Sample.finished_row
  /\ exists r',
       db (chat_turns Sample.py_repr Sample.json_loads
             [(Sample.healthy, Sample.later_message)] Sample.finished_world)
         !! "s" = Some r'
       /\ row_is_complete r' = true
       /\ row_created_at r' = row_created_at Sample.finished_row.
Proof.
  split; [reflexivity|].
  apply (completion_kept_by_later_turns Sample.py_repr Sample.json_loads
           [(Sample.healthy, Sample.later_message)] Sample.finished_world "s"
           Sample.finished_row); [reflexivity | reflexivity |].
  constructor; [intros _; reflexivity | constructor].
Defined.

(** A flagged first message on a stored, complete session: the greeting is
    returned with complete false, and the row is saved with the default
    flag of [save_session]. *)
Lemma first_message_on_finished_session :
  let result := chat Sample.py_repr Sample.json_loads Sample.healthy
                  Sample.first_message Sample.finished_world in
  fst result = Returned (Response greeting false 0 "s")
  /\ row_is_complete <$> db (snd result) !! "s" = Some false.
Proof. split; vm_compute; reflexivity. Qed.

(** Scenario B of the specification: three extracted facts on an empty
    profile give three keys and a progress of 16. *)
Lemma three_facts_progress :
  let facts := [("current_degree", PyStr "Bachelors");
                ("current_major", PyStr "Computer Science");
                ("current_institution", PyStr "LUMS")] in
  merge_facts Sample.py_repr [] facts
  = [("current_degree", "Bachelors"); ("current_major", "Computer Science");
     ("current_institution", "LUMS")]
  /\ progress (length (merge_facts Sample.py_repr [] facts)) = 16%Z.
Proof. split; vm_compute; reflexivity. Qed.

(** The claim as the specification words it fails on a turn flagged as first
    message: the stored flag and the returned flag are both false after it. *)
Lemma completion_never_reverts_counterexample :
  ~ completion_never_reverts Sample.py_repr Sample.json_loads Sample.healthy
      Sample.first_message Sample.finished_world.
Proof.
  intros H.
  destruct (H Sample.finished_row eq_refl eq_refl) as [_ Hreturned].
  specialize (Hreturned (Response greeting false 0 "s")).
  discriminate Hreturned. vm_compute. reflexivity.
Qed.

Lemma only_delete_and_startup_remove_witness :
  db Sample.finished_world !! "s" = Some Sample.finished_row
  /\ exists r',
       db (perform Sample.py_repr Sample.json_loads Sample.healthy
             (PostChat Sample.first_message) Sample.finished_world) !! "s"
       = Some r'
       /\ row_created_at r' = row_created_at Sample.finished_row.
Proof.
  split; [reflexivity|].
  apply (only_delete_and_startup_remove Sample.py_repr Sample.json_loads
           Sample.healthy (PostChat Sample.first_message)
           Sample.finished_world "s" Sample.finished_row);
    [reflexivity | discriminate | discriminate].
Defined.

(** The claim as the specification words it fails on the start of the
    service, which drops the table. *)
Lemma only_delete_removes_counterexample :
  ~ only_delete_removes Sample.py_repr Sample.json_loads Sample.healthy
      Startup "s" Sample.finished_world.
Proof.
  intros H. destruct H as [r Hr].
  - exists Sample.finished_row. reflexivity.
  - discriminate.
  - simpl in Hr. rewrite lookup_empty in Hr. discriminate Hr.
Qed.


(** * Further properties of the handlers *)

(** ** The store, operation by operation *)

Section StoreLaws.

Variable E : env.

(** X1. Deleting a session answers "Session deleted" whether or not the
    session is stored; a session that is not stored leaves the table as it
    is, a second deletion changes nothing more, and no other row is touched. *)
Theorem delete_session_idempotent sid w :
  sqlite_fault E SqlDelete = false ->
  let once := delete_session E sid w in
  let twice := delete_session E sid (snd once) in
  fst once = Returned "Session deleted"
  /\ fst twice = Returned "Session deleted"
  /\ db (snd once) !! sid = None
  /\ db (snd twice) = db (snd once)
  /\ (db w !! sid = None -> db (snd once) = db w)
  /\ (forall sid', sid' <> sid -> db (snd once) !! sid' = db w !! sid')
  /\ trace (snd twice) = trace w.
Proof.
  intros Hf once twice. subst once twice.
  rewrite !delete_session_run, Hf. simpl.
  split; [reflexivity|]. split; [reflexivity|].
  split; [apply lookup_delete_eq|].
  split; [apply delete_delete_eq|].
  split; [apply delete_id|].
  split; [|reflexivity].
  intros sid' Hne. apply lookup_delete_ne. congruence.
Qed.

(** X2. [save_session] never creates a session: for an id that has no row
    the UPDATE matches nothing, the call returns normally and the table is
    what it was. *)
Theorem save_session_never_creates sid p h c w :
  db w !! sid = None ->
  db (snd (save_session E sid p h c w)) = db w
  /\ dom (db (snd (save_session E sid p h c w))) = dom (db w)
  /\ (sqlite_fault E SqlUpdate = false ->
      save_session E sid p h c w = (Returned tt, w)).
Proof.
  intros Hnone. rewrite save_session_run, Hnone.
  destruct (sqlite_fault E SqlUpdate); simpl;
    (split; [reflexivity|]; split; [reflexivity|]);
    [discriminate | reflexivity].
Qed.

(** X3. What [save_session] writes is what [get_session] reads back: after
    a save of a stored session the load returns exactly the saved profile,
    transcript and flag; the creation time of the row and every other row
    are unchanged. *)
Theorem save_then_get_session sid p h c w r :
  db w !! sid = Some r ->
  sqlite_fault E SqlUpdate = false ->
  sqlite_fault E SqlSelect = false ->
  let saved := snd (save_session E sid p h c w) in
  get_session E sid saved = (Returned (Session sid h p c), saved)
  /\ (row_created_at <$> db saved !! sid) = Some (row_created_at r)
  /\ (forall sid', sid' <> sid -> db saved !! sid' = db w !! sid')
  /\ dom (db saved) = dom (db w).
Proof.
  intros Hr Hupd Hsel saved. subst saved.
  rewrite save_session_run, Hupd, Hr. simpl.
  rewrite get_session_run, Hsel. simpl. rewrite lookup_insert_eq. simpl.
  split; [reflexivity|]. split; [reflexivity|]. split.
  - intros sid' Hne. apply lookup_insert_ne. congruence.
  - rewrite dom_insert_L. apply subseteq_union_1_L, singleton_subseteq_l.
    now apply elem_of_dom_2 in Hr.
Qed.

(** X4. Loading a stored session is a pure read, and loading twice is
    loading once: the second load returns the session of the first (the
    empty one it inserted, for a new id) and changes nothing. *)
Theorem get_session_twice sid w :
  sqlite_fault E SqlSelect = false ->
  sqlite_fault E SqlInsert = false ->
  let first := get_session E sid w in
  get_session E sid (snd first) = (fst first, snd first)
  /\ (is_Some (db w !! sid) -> snd first = w)
  /\ is_Some (db (snd first) !! sid)
  /\ (forall sid', sid' <> sid -> db (snd first) !! sid' = db w !! sid').
Proof.
  intros Hsel Hins first. subst first.
  rewrite (get_session_run E sid w), Hsel.
  destruct (db w !! sid) as [r|] eqn:Hr.
  - simpl. rewrite get_session_run, Hsel, Hr. eauto.
  - rewrite Hins. simpl. rewrite get_session_run, Hsel. simpl.
    rewrite lookup_insert_eq. split; [reflexivity|].
    split; [intros [? [=]]|]. split; [eauto|].
    intros sid' Hne. apply lookup_insert_ne. congruence.
Qed.

Lemma newer_total : Total newer.
Proof. intros a b. unfold newer. lia. Qed.

Lemma newer_transitive : Transitive newer.
Proof. intros a b c. unfold newer. lia. Qed.

Lemma get_all_sessions_run w :
  get_all_sessions E w =
  if sqlite_fault E SqlSelectAll then (Raised OperationalError, w)
  else (Returned (map entry_of (merge_sort newer (map_to_list (db w)))), w).
Proof.
  unfold get_all_sessions. rewrite bind_run, execute_run.
  now destruct (sqlite_fault E SqlSelectAll).
Qed.

(** X5. The listing has exactly one entry per stored session, carrying its
    id, flag and creation time, and is ordered newest first: every entry is
    at least as new as all entries after it.  The table is not changed. *)
Theorem get_all_sessions_listing w :
  sqlite_fault E SqlSelectAll = false ->
  exists listing,
    get_all_sessions E w = (Returned listing, w)
    /\ StronglySorted newer_entry listing
    /\ length listing = size (db w)
    /\ NoDup (map (fun e => fst (fst e)) listing)
    /\ (forall sid c t,
          (sid, c, t) ∈ listing <->
          exists r, db w !! sid = Some r
                    /\ c = row_is_complete r /\ t = row_created_at r).
Proof.
  intros Hf. rewrite get_all_sessions_run, Hf.
  set (rows := merge_sort newer (map_to_list (db w))).
  assert (Hperm : rows ≡ₚ map_to_list (db w)) by apply merge_sort_Permutation.
  exists (map entry_of rows). split; [reflexivity|]. split; [|split; [|split]].
  - apply (StronglySorted_fmap entry_of newer newer_entry); [auto|].
    apply (@StronglySorted_merge_sort _ newer _ newer_transitive newer_total).
  - rewrite length_map, Hperm. apply length_map_to_list.
  - rewrite map_map. simpl. change (map (fun x => fst x) rows) with (rows.*1).
    rewrite Hperm. apply NoDup_fst_map_to_list.
  - intros sid c t. rewrite list_elem_of_fmap. split.
    + intros [[sid' r] [Heq Hin]]. rewrite Hperm in Hin.
      apply elem_of_map_to_list in Hin. inversion Heq; subst. eauto.
    + intros (r & Hr & -> & ->). exists (sid, r). split; [reflexivity|].
      rewrite Hperm. now apply elem_of_map_to_list.
Qed.

End StoreLaws.

(** ** Trimming *)

Module StripLaws.
Import PyStr.

Lemma lstrip_head s :
  match lstrip s with
  | EmptyString => True
  | String c _ => isspace c = false
  end.
Proof.
  induction s as [|c s IH]; simpl; [exact I|].
  destruct (isspace c) eqn:Hc; [exact IH | exact Hc].
Qed.

Lemma lstrip_fixed s :
  match s with EmptyString => True | String c _ => isspace c = false end ->
  lstrip s = s.
Proof. destruct s as [|c s]; simpl; [reflexivity | now intros ->]. Qed.

Lemma rstrip_head c s :
  isspace c = false -> exists r, rstrip (String c s) = String c r.
Proof.
  intros Hc. simpl. destruct (rstrip s); [rewrite Hc|]; eauto.
Qed.

Lemma rstrip_rstrip s : rstrip (rstrip s) = rstrip s.
Proof.
  induction s as [|c s IH]; simpl; [reflexivity|].
  destruct (rstrip s) as [|d r] eqn:Hr.
  - destruct (isspace c) eqn:Hc; simpl; [reflexivity | now rewrite Hc].
  - change (rstrip (String c (String d r))) with
      (match rstrip (String d r) with
       | EmptyString => if isspace c then EmptyString else String c EmptyString
       | r' => String c r'
       end).
    now rewrite IH.
Qed.

(** [strip] returns a string that [strip] leaves alone. *)
Lemma strip_strip s : strip (strip s) = strip s.
Proof.
  unfold strip.
  assert (Hl : lstrip (rstrip (lstrip s)) = rstrip (lstrip s)).
  { pose proof (lstrip_head s) as Hh.
    destruct (lstrip s) as [|c t]; [reflexivity|].
    destruct (rstrip_head c t Hh) as [r ->]. simpl. now rewrite Hh. }
  rewrite Hl. apply rstrip_rstrip.
Qed.

End StripLaws.

(** ** The merge loop over many candidates *)

Lemma progress_mono a b : a <= b -> (progress a <= progress b)%Z.
Proof.
  intros Hab. rewrite !progress_eq.
  apply Z.min_le_compat_l, Z.div_le_mono; lia.
Qed.

Lemma grows_to_refl P : grows_to P P.
Proof. intros k old Hk. eauto. Qed.

Lemma grows_to_trans P Q R : grows_to P Q -> grows_to Q R -> grows_to P R.
Proof.
  intros HPQ HQR k old Hk.
  destruct (HPQ k old Hk) as (mid & Hmid & Hle1).
  destruct (HQR k mid Hmid) as (new & Hnew & Hle2).
  exists new. split; [assumption | lia].
Qed.

Section MergeLaws.

Variable py_repr : pyval -> string.

#[local] Abbreviation passes_filter := (passes_filter py_repr).
#[local] Abbreviation merge_pair := (merge_pair py_repr).
#[local] Abbreviation merge_facts := (merge_facts py_repr).
#[local] Abbreviation py_str := (py_str py_repr).
#[local] Abbreviation settled := (settled py_repr).

(** The three outcomes of one iteration. *)
Lemma merge_pair_cases P k v :
  merge_pair P k v = P
  \/ (passes_filter v = true
      /\ merge_pair P k v = dict_set P k (PyStr.strip (py_str v))
      /\ match dict_get P k with
         | Some old =>
             String.length old < String.length (PyStr.strip (py_str v))
         | None => True
         end).
Proof.
  destruct (passes_filter v) eqn:Hf; [|left; now apply merge_pair_rejected].
  destruct (dict_get P k) as [old|] eqn:Hg.
  - rewrite (merge_pair_present py_repr P k v old Hf Hg).
    destruct (Nat.ltb_spec (String.length old)
                (String.length (PyStr.strip (py_str v)))); [right | left]; auto.
  - right. rewrite (merge_pair_new py_repr P k v Hf Hg). auto.
Qed.

Lemma merge_pair_grows P k v : grows_to P (merge_pair P k v).
Proof.
  destruct (merge_pair_cases P k v) as [-> | (Hf & -> & Hlen)];
    [apply grows_to_refl|].
  intros k' old Hk'. destruct (String.eqb_spec k k') as [<- | Hne].
  - rewrite dict_get_set_eq. rewrite Hk' in Hlen. eexists. split; [reflexivity | lia].
  - rewrite dict_get_set_ne by assumption. eauto.
Qed.

Lemma merge_pair_length P k v : length P <= length (merge_pair P k v).
Proof.
  destruct (merge_pair_cases P k v) as [-> | (_ & -> & _)]; [lia|].
  rewrite dict_set_length. destruct (dict_get P k); lia.
Qed.

Lemma merge_pair_clean P k v :
  (forall k' s, dict_get P k' = Some s -> clean_value s) ->
  forall k' s, dict_get (merge_pair P k v) k' = Some s -> clean_value s.
Proof.
  intros HP.
  destruct (merge_pair_cases P k v) as [-> | (Hf & -> & _)]; [exact HP|].
  intros k' s. destruct (String.eqb_spec k k') as [<- | Hne].
  - rewrite dict_get_set_eq. intros [= <-]. split.
    + apply StripLaws.strip_strip.
    + now apply passes_filter_nonempty.
  - rewrite dict_get_set_ne by assumption. apply HP.
Qed.

Lemma merge_pair_settles P k v : settled (merge_pair P k v) k v.
Proof.
  intros Hf. destruct (dict_get P k) as [old|] eqn:Hg.
  - rewrite (merge_pair_present py_repr P k v old Hf Hg).
    destruct (Nat.ltb_spec (String.length old)
                (String.length (PyStr.strip (py_str v)))) as [Hlt|Hge].
    + rewrite dict_get_set_eq. eexists. split; [reflexivity|].
      split; [now apply passes_filter_nonempty | lia].
    + exists old. split; [assumption|]. split; [|assumption].
      intros ->. apply (passes_filter_nonempty py_repr v Hf).
      destruct (PyStr.strip (py_str v)); [reflexivity | simpl in Hge; lia].
  - rewrite (merge_pair_new py_repr P k v Hf Hg), dict_get_set_eq.
    eexists. split; [reflexivity|].
    split; [now apply passes_filter_nonempty | lia].
Qed.

Lemma merge_pair_keeps_settled P k v k' v' :
  settled P k v -> settled (merge_pair P k' v') k v.
Proof.
  intros Hs Hf. destruct (Hs Hf) as (cur & Hcur & Hne & Hle).
  destruct (merge_pair_cases P k' v') as [-> | (Hf' & -> & Hlen)]; [eauto|].
  destruct (String.eqb_spec k' k) as [-> | Hkk].
  - rewrite dict_get_set_eq. rewrite Hcur in Hlen.
    eexists. split; [reflexivity|].
    split; [now apply passes_filter_nonempty | lia].
  - rewrite dict_get_set_ne by assumption. eauto.
Qed.

Lemma merge_pair_settled P k v : settled P k v -> merge_pair P k v = P.
Proof.
  intros Hs. destruct (passes_filter v) eqn:Hf;
    [|now apply merge_pair_rejected].
  destruct (Hs Hf) as (cur & Hcur & Hne & Hle).
  rewrite (merge_pair_present py_repr P k v cur Hf Hcur).
  destruct (Nat.ltb_spec (String.length cur)
              (String.length (PyStr.strip (py_str v)))); [lia | reflexivity].
Qed.

Lemma merge_facts_keeps_settled kvs P k v :
  settled P k v -> settled (merge_facts P kvs) k v.
Proof.
  revert P. induction kvs as [|[k' v'] kvs IH]; intros P Hs; [exact Hs|].
  rewrite merge_facts_cons. apply IH. now apply merge_pair_keeps_settled.
Qed.

Lemma merge_facts_settles kvs P :
  Forall (fun kv => settled (merge_facts P kvs) (fst kv) (snd kv)) kvs.
Proof.
  revert P. induction kvs as [|[k v] kvs IH]; intros P; constructor.
  - rewrite merge_facts_cons. apply merge_facts_keeps_settled, merge_pair_settles.
  - rewrite merge_facts_cons. apply IH.
Qed.

Lemma merge_facts_settled kvs Q :
  Forall (fun kv => settled Q (fst kv) (snd kv)) kvs -> merge_facts Q kvs = Q.
Proof.
  induction 1 as [|[k v] kvs Hkv _ IH]; [reflexivity|].
  rewrite merge_facts_cons, merge_pair_settled; assumption.
Qed.

Lemma merge_facts_monotone P kvs :
  grows_to P (merge_facts P kvs) /\ length P <= length (merge_facts P kvs).
Proof.
  revert P. induction kvs as [|[k v] kvs IH]; intros P.
  - split; [apply grows_to_refl | reflexivity].
  - rewrite merge_facts_cons.
    destruct (IH (merge_pair P k v)) as [Hg Hl]. split.
    + eapply grows_to_trans; [apply merge_pair_grows | exact Hg].
    + pose proof (merge_pair_length P k v). lia.
Qed.

(** X6. The merge loop never removes a key and never shortens a value:
    every key of the profile is a key of the merged profile, with a value
    at least as long; so the number of keys and the progress computed from
    it never go down. *)
Theorem merge_facts_grows P kvs :
  grows_to P (merge_facts P kvs)
  /\ length P <= length (merge_facts P kvs)
  /\ (progress (length P) <= progress (length (merge_facts P kvs)))%Z.
Proof.
  destruct (merge_facts_monotone P kvs) as [Hg Hl].
  repeat split; [exact Hg | exact Hl |]. now apply progress_mono.
Qed.

(** X7. Merging the same candidates a second time changes nothing. *)
Theorem merge_facts_idempotent P kvs :
  merge_facts (merge_facts P kvs) kvs = merge_facts P kvs.
Proof. apply merge_facts_settled, merge_facts_settles. Qed.

(** X8. The merge loop keeps the profile well formed: keys stay unique, and
    when every stored value is trimmed and non-empty, so is every value
    after the loop (in particular every value of a profile built from the
    empty one). *)
Theorem merge_facts_well_formed P kvs :
  List.NoDup (map fst P) ->
  (forall k s, dict_get P k = Some s -> clean_value s) ->
  List.NoDup (map fst (merge_facts P kvs))
  /\ (forall k s, dict_get (merge_facts P kvs) k = Some s -> clean_value s).
Proof.
  revert P. induction kvs as [|[k v] kvs IH]; intros P Hnd Hclean.
  - split; assumption.
  - rewrite merge_facts_cons. apply IH.
    + now apply merge_pair_NoDup.
    + now apply merge_pair_clean.
Qed.

End MergeLaws.

(** ** Stop signals *)

Module ContainsLaws.
Import PyStr.

Lemma prefix_app sub b : String.prefix sub (sub ++ b) = true.
Proof.
  induction sub as [|c sub IH]; simpl; [now destruct b|].
  destruct (Ascii.ascii_dec c c); [exact IH | contradiction].
Qed.

Lemma prefix_split sub s :
  String.prefix sub s = true -> exists b, s = sub ++ b.
Proof.
  revert s. induction sub as [|c sub IH]; intros s; [simpl; eauto|].
  destruct s as [|d s]; simpl; [intros [=]|].
  destruct (Ascii.ascii_dec c d) as [->|]; [|intros [=]].
  intros [b ->]%IH. exists b. reflexivity.
Qed.

Lemma contains_prefix sub s : String.prefix sub s = true -> contains sub s = true.
Proof. destruct s; simpl; now intros ->. Qed.

Lemma contains_app sub a b : contains sub (a ++ sub ++ b) = true.
Proof.
  induction a as [|c a IH].
  - apply contains_prefix. exact (prefix_app sub b).
  - change (contains sub (String c (a ++ sub ++ b)) = true).
    cbn [contains]. rewrite IH. apply orb_true_r.
Qed.

Lemma contains_split sub s :
  contains sub s = true -> exists a b, s = a ++ sub ++ b.
Proof.
  induction s as [|c s IH]; cbn [contains].
  - rewrite orb_false_r. intros [b Hb]%prefix_split. exists EmptyString, b.
    exact Hb.
  - intros [Hp | Hc]%orb_prop.
    + apply prefix_split in Hp as [b Hb]. exists EmptyString, b. exact Hb.
    + destruct (IH Hc) as (a & b & ->). exists (String c a), b. reflexivity.
Qed.

End ContainsLaws.

(** X9. The detector is plain substring search: a lower-cased reply carries
    a stop signal exactly when one of the fifteen phrases occurs somewhere
    inside it, whatever text surrounds the phrase. *)
Theorem has_stop_signal_iff ai_lower :
  has_stop_signal ai_lower = true <->
  exists phrase before after,
    In phrase stop_signals /\ ai_lower = before ++ phrase ++ after.
Proof.
  unfold has_stop_signal. rewrite existsb_exists. split.
  - intros (phrase & Hin & Hc).
    destruct (ContainsLaws.contains_split _ _ Hc) as (a & b & ->). eauto.
  - intros (phrase & a & b & Hin & ->). exists phrase.
    split; [assumption | apply ContainsLaws.contains_app].
Qed.

(** ** A turn, step by step *)

Section ChatLaws.

Variable py_repr : pyval -> string.
Variable json_loads : string -> option pyval.
Variable E : env.

#[local] Abbreviation chat := (chat py_repr json_loads E).
#[local] Abbreviation chat_body := (chat_body py_repr json_loads E).
#[local] Abbreviation next_turn := (next_turn py_repr json_loads E).
#[local] Abbreviation learn := (learn py_repr json_loads E).
#[local] Abbreviation extracted_of := (extracted_of json_loads E).

Lemma model_calls_app tr1 tr2 :
  model_calls (tr1 ++ tr2) = (model_calls tr1 ++ model_calls tr2)%list.
Proof. unfold model_calls. apply flat_map_app. Qed.

Lemma model_calls_call_events p : model_calls (call_events E p) = [p].
Proof. unfold call_events. now destruct (generate_content E p). Qed.

Lemma extract_run p w :
  extract json_loads E p w =
  (Returned (extracted_of p),
   World (db w) (trace w ++ call_events E p)%list).
Proof.
  unfold extract, extracted_of, call_events. rewrite bind_run.
  unfold call_model. rewrite bind_run. simpl.
  destruct (generate_content E p) as [|text]; simpl.
  - rewrite bind_run. unfold log. simpl. now rewrite <- app_assoc.
  - now destruct (json_loads (unfence text)).
Qed.

Lemma generate_run p w :
  generate E p w =
  (Returned (ai_reply_of E p),
   World (db w) (trace w ++ call_events E p)%list).
Proof.
  unfold generate, ai_reply_of, call_events. rewrite bind_run.
  unfold call_model. rewrite bind_run. simpl.
  destruct (generate_content E p) as [|text]; simpl; [|reflexivity].
  rewrite bind_run. unfold log. simpl. now rewrite <- app_assoc.
Qed.

Lemma learn_run request session h w :
  learn request session h w =
  if PyStr.nonempty (PyStr.strip (rq_message request)) then
    let p := ExtractPrompt
               (chat_context (if (4 <=? length h)%nat then last_n 4 h else h))
               (rq_message request) (profile_data session) in
    let w1 := World (db w) (trace w ++ call_events E p)%list in
    match extracted_of p with
    | PyDict kvs =>
        (Returned (merge_facts py_repr (profile_data session) kvs), w1)
    | _ => (Raised AttributeError, w1)
    end
  else (Returned (profile_data session), w).
Proof.
  unfold learn. destruct (PyStr.nonempty _); [|reflexivity].
  cbv zeta. rewrite bind_run, extract_run.
  now destruct (extracted_of _).
Qed.

Lemma next_turn_run request session w :
  next_turn request session w =
  let h := heard request (chat_history session) in
  match learn request session h w with
  | (Raised e, w1) => (Raised e, w1)
  | (Returned pd, w1) =>
      let p := FullPrompt (profile_summary pd) (last_n 10 h)
                 (rq_message request) in
      let ai := ai_reply_of E p in
      let c := if has_stop_signal (PyStr.lower ai) then true
               else is_complete session in
      let w2 := World (db w1) (trace w1 ++ call_events E p)%list in
      match save_session E (rq_session_id request) pd
              (h ++ [Turn "assistant" ai])%list c w2 with
      | (Returned _, w3) =>
          (Returned (Response ai c (progress (length pd))
                       (rq_session_id request)), w3)
      | (Raised e, w3) => (Raised e, w3)
      end
  end.
Proof.
  unfold next_turn. cbv zeta. rewrite bind_run. fold (heard request (chat_history session)).
  destruct (learn _ _ _ w) as [[pd|e] w1]; [|reflexivity].
  rewrite bind_run, generate_run. rewrite bind_run.
  now destruct (save_session _ _ _ _ _ _) as [[[]|e] w3].
Qed.

(** What a successful load returns and leaves: the session of a row that is
    stored afterwards, which is the row found or the empty row inserted. *)
Lemma get_session_returned sid w session w1 :
  get_session E sid w = (Returned session, w1) ->
  exists r1,
    session = Session sid (row_chat_history r1) (row_profile_data r1)
                (row_is_complete r1)
    /\ db w1 !! sid = Some r1
    /\ trace w1 = trace w
    /\ (forall sid', sid' <> sid -> db w1 !! sid' = db w !! sid')
    /\ ((db w !! sid = Some r1 /\ w1 = w)
        \/ (db w !! sid = None
            /\ r1 = Row [] [] false (current_timestamp E))).
Proof.
  rewrite get_session_run.
  destruct (sqlite_fault E SqlSelect); [intros [=]|].
  destruct (db w !! sid) as [r|] eqn:Hr.
  - intros [= <- <-]. exists r. repeat split; auto.
  - destruct (sqlite_fault E SqlInsert); [intros [=]|].
    intros [= <- <-]. eexists. simpl. rewrite lookup_insert_eq.
    repeat split; auto.
    intros sid' Hne. apply lookup_insert_ne. congruence.
Qed.

Lemma learn_returned request session h w pd w1 :
  learn request session h w = (Returned pd, w1) ->
  db w1 = db w
  /\ grows_to (profile_data session) pd
  /\ length (profile_data session) <= length pd.
Proof.
  rewrite learn_run. destruct (PyStr.nonempty _).
  - cbv zeta. destruct (extracted_of _); try (intros Hx; discriminate Hx).
    intros [= <- <-]. split; [reflexivity|]. apply merge_facts_monotone.
  - intros [= <- <-]. split; [reflexivity|].
    split; [apply grows_to_refl | reflexivity].
Qed.

(** The two ways a turn after the first ends, on a stored session: an
    exception and an untouched table, or a response and the row that
    matches it. *)
Lemma next_turn_effect request r1 w1 :
  db w1 !! rq_session_id request = Some r1 ->
  let session := Session (rq_session_id request) (row_chat_history r1)
                   (row_profile_data r1) (row_is_complete r1) in
  let result := next_turn request session w1 in
  match fst result with
  | Raised _ => db (snd result) = db w1
  | Returned response =>
      exists pd,
        db (snd result)
        = <[rq_session_id request :=
              Row (heard request (row_chat_history r1)
                   ++ [Turn "assistant" (rs_question response)])
                pd (rs_is_complete response) (row_created_at r1)]> (db w1)
        /\ rs_is_complete response
           = row_is_complete r1
             || has_stop_signal (PyStr.lower (rs_question response))
        /\ rs_progress response = progress (length pd)
        /\ rs_session_id response = rq_session_id request
        /\ grows_to (row_profile_data r1) pd
        /\ rs_question response
           = ai_reply_of E
               (FullPrompt (profile_summary pd)
                  (last_n 10 (heard request (row_chat_history r1)))
                  (rq_message request))
  end.
Proof.
  intros Hr1 session result. subst result. rewrite next_turn_run. cbv zeta.
  pose proof (keeps_db_learn py_repr json_loads E request session
                (heard request (chat_history session)) w1) as Hk.
  destruct (learn request session _ w1) as [[pd|e] w2] eqn:Hl;
    simpl in Hk; [|exact Hk].
  apply learn_returned in Hl as (Hdb & Hgrow & _).
    rewrite save_session_run.
    destruct (sqlite_fault E SqlUpdate); [exact Hdb|].
    simpl. rewrite Hdb, Hr1. simpl. exists pd.
    split; [reflexivity|]. split; [|auto].
    destruct (has_stop_signal _), (row_is_complete r1); reflexivity.
Qed.

Lemma first_turn_effect request session w1 r1 :
  db w1 !! rq_session_id request = Some r1 ->
  let result := first_turn E request session w1 in
  trace (snd result) = trace w1
  /\ match fst result with
     | Raised _ => db (snd result) = db w1
     | Returned _ =>
         db (snd result)
         = <[rq_session_id request :=
               Row (chat_history session ++ [Turn "assistant" greeting])
                 (profile_data session) false (row_created_at r1)]> (db w1)
     end.
Proof.
  intros Hr1 result. subst result. rewrite first_turn_run, save_session_run.
  destruct (sqlite_fault E SqlUpdate); [now split|]. now rewrite Hr1.
Qed.

(** The world a turn leaves is the world its body left. *)
Lemma chat_world request w : snd (chat request w) = snd (chat_body request w).
Proof. rewrite chat_run. now destruct (chat_body request w) as [[?|?] ?]. Qed.

(** X10. A turn touches one row: whatever the request and whatever fails,
    the rows of all other sessions are what they were, and no row of
    another session appears. *)
Theorem chat_touches_one_row request w sid' :
  sid' <> rq_session_id request ->
  db (snd (chat request w)) !! sid' = db w !! sid'.
Proof.
  intros Hne. rewrite chat_world, chat_body_run.
  destruct (get_session E (rq_session_id request) w) as [[session|e] w1] eqn:Hg.
  - apply get_session_returned in Hg as (r1 & -> & Hr1 & _ & Hother & _).
    rewrite <- (Hother sid' Hne).
    destruct (rq_is_first_message request).
    + destruct (first_turn_db E request
                  (Session (rq_session_id request) (row_chat_history r1)
                     (row_profile_data r1) (row_is_complete r1)) w1)
        as [-> | (r & _ & ->)]; [reflexivity|].
      apply lookup_insert_ne. congruence.
    + destruct (next_turn_db py_repr json_loads E request
                  (Session (rq_session_id request) (row_chat_history r1)
                     (row_profile_data r1) (row_is_complete r1)) w1)
        as [-> | (r & h & p & c & _ & -> & _)]; [reflexivity|].
      apply lookup_insert_ne. congruence.
  - rewrite get_session_run in Hg.
    destruct (sqlite_fault E SqlSelect); [now inversion Hg|].
    destruct (db w !! rq_session_id request); [discriminate|].
    destruct (sqlite_fault E SqlInsert); [now inversion Hg | discriminate].
Qed.

(** X11. The stored transcript is only ever appended to: after any turn on
    a stored session the old transcript is a prefix of the new one, and
    what was added is nothing (a fault), one assistant turn, or the user's
    message followed by one assistant turn. *)
Theorem transcript_append_only request w r :
  db w !! rq_session_id request = Some r ->
  exists r' added,
    db (snd (chat request w)) !! rq_session_id request = Some r'
    /\ row_chat_history r' = (row_chat_history r ++ added)%list
    /\ row_created_at r' = row_created_at r
    /\ (added = []
        \/ (exists a, added = [Turn "assistant" a])
        \/ (exists a, added = [Turn "user" (rq_message request);
                               Turn "assistant" a])).
Proof.
  intros Hr. rewrite chat_world, chat_body_run, get_session_run.
  destruct (sqlite_fault E SqlSelect).
  { exists r, []. rewrite app_nil_r. auto. }
  rewrite Hr. destruct (rq_is_first_message request).
  - destruct (first_turn_effect request
                (Session (rq_session_id request) (row_chat_history r)
                   (row_profile_data r) (row_is_complete r)) w r Hr)
      as [_ Hdb].
    destruct (fst (first_turn E request _ w)); rewrite Hdb.
    + rewrite lookup_insert_eq. eexists _, [Turn "assistant" greeting].
      split; [reflexivity|]. simpl. split; [reflexivity|].
      split; [reflexivity|]. right. left. eauto.
    + exists r, []. rewrite app_nil_r. auto.
  - pose proof (next_turn_effect request r w Hr) as Heff. simpl in Heff.
    destruct (fst (next_turn request _ w)) as [response|e].
    + destruct Heff as (pd & -> & _). rewrite lookup_insert_eq.
      unfold heard. destruct (PyStr.nonempty _).
      * eexists _, [Turn "user" (rq_message request);
                    Turn "assistant" (rs_question response)].
        split; [reflexivity|]. simpl. split; [now rewrite <- app_assoc|].
        split; [reflexivity|]. right. right. eauto.
      * eexists _, [Turn "assistant" (rs_question response)].
        split; [reflexivity|]. simpl. split; [reflexivity|].
        split; [reflexivity|]. right. left. eauto.
    + rewrite Heff. exists r, []. rewrite app_nil_r. auto.
Qed.

(** A turn after the first that returns from the body of the [try]: the
    response and the row it leaves. *)
Lemma chat_body_returned request w response :
  rq_is_first_message request = false ->
  fst (chat_body request w) = Returned response ->
  let sid := rq_session_id request in
  let before :=
    default (Row [] [] false (current_timestamp E)) (db w !! sid) in
  exists r',
    db (snd (chat request w)) !! sid = Some r'
    /\ row_chat_history r'
       = (heard request (row_chat_history before)
          ++ [Turn "assistant" (rs_question response)])%list
    /\ row_is_complete r' = rs_is_complete response
    /\ rs_is_complete response
       = row_is_complete before
         || has_stop_signal (PyStr.lower (rs_question response))
    /\ rs_progress response = progress (length (row_profile_data r'))
    /\ grows_to (row_profile_data before) (row_profile_data r')
    /\ row_created_at r' = row_created_at before
    /\ rs_session_id response = sid
    /\ rs_question response
       = ai_reply_of E
           (FullPrompt (profile_summary (row_profile_data r'))
              (last_n 10 (heard request (row_chat_history before)))
              (rq_message request)).
Proof.
  intros Hfirst Hbody sid before. subst sid before.
  rewrite chat_world. revert Hbody. rewrite chat_body_run.
  destruct (get_session E (rq_session_id request) w) as [[session|e] w1] eqn:Hg;
    [|intros [=]].
  apply get_session_returned in Hg as (r1 & -> & Hr1 & _ & _ & Hcase).
  assert (Hbefore : default (Row [] [] false (current_timestamp E))
                      (db w !! rq_session_id request) = r1).
  { destruct Hcase as [[-> _] | [-> ->]]; reflexivity. }
  rewrite Hbefore, Hfirst.
  pose proof (next_turn_effect request r1 w1 Hr1) as Heff. simpl in Heff.
  destruct (next_turn request _ w1) as [[response'|e] w2]; simpl in *;
    [|intros [=]].
  intros [= ->].
  destruct Heff as (pd & -> & Hc & Hp & Hs & Hgrow & Hq).
  rewrite lookup_insert_eq. eexists. split; [reflexivity|]. simpl. auto 10.
Qed.

Lemma chat_of_body request w response :
  fst (chat_body request w) = Returned response ->
  fst (chat request w) = Returned response.
Proof.
  rewrite chat_run. destruct (chat_body request w) as [[?|?] ?]; simpl;
    [auto | intros [=]].
Qed.

(** X12. A turn after the first that returns from the body of the [try]
    has stored what it answers: the row of the session ends with the
    returned question as assistant turn, after the old transcript and the
    user's message; its flag is the returned flag, which is the old flag or
    a stop signal in the reply; the returned progress is the progress of the
    stored profile; and that profile has every old key, with values at
    least as long. *)
Theorem turn_stores_what_it_answers request w response :
  rq_is_first_message request = false ->
  fst (chat_body request w) = Returned response ->
  let sid := rq_session_id request in
  let before :=
    default (Row [] [] false (current_timestamp E)) (db w !! sid) in
  fst (chat request w) = Returned response
  /\ exists r',
       db (snd (chat request w)) !! sid = Some r'
       /\ row_chat_history r'
          = (heard request (row_chat_history before)
             ++ [Turn "assistant" (rs_question response)])%list
       /\ row_is_complete r' = rs_is_complete response
       /\ rs_is_complete response
          = row_is_complete before
            || has_stop_signal (PyStr.lower (rs_question response))
       /\ rs_progress response = progress (length (row_profile_data r'))
       /\ grows_to (row_profile_data before) (row_profile_data r')
       /\ row_created_at r' = row_created_at before
       /\ rs_session_id response = sid.
Proof.
  intros Hfirst Hbody sid before. split; [now apply chat_of_body|].
  destruct (chat_body_returned request w response Hfirst Hbody)
    as (r' & H1 & H2 & H3 & H4 & H5 & H6 & H7 & H8 & _).
  exists r'. auto 10.
Qed.



Lemma extraction_failed p :
  (generate_content E p = ServiceError
   \/ exists text, generate_content E p = ResponseText text
                   /\ json_loads (unfence text) = None) ->
  extracted_of p = PyDict [].
Proof.
  unfold extracted_of. intros [-> | (text & -> & ->)]; reflexivity.
Qed.

(** X14. A failed extraction never fails the turn: when the extraction call
    raises or its answer does not decode, and the database does not fault,
    the turn returns from the body of the [try] with the profile as it was
    stored, the progress of that profile, and the transcript extended by
    the message and the reply. *)
Theorem extraction_failure_is_tolerated request w :
  rq_is_first_message request = false ->
  (forall p, is_extraction p = true ->
     generate_content E p = ServiceError
     \/ exists text, generate_content E p = ResponseText text
                     /\ json_loads (unfence text) = None) ->
  sqlite_fault E SqlSelect = false ->
  sqlite_fault E SqlInsert = false ->
  sqlite_fault E SqlUpdate = false ->
  let sid := rq_session_id request in
  let before :=
    default (Row [] [] false (current_timestamp E)) (db w !! sid) in
  exists response r',
    fst (chat_body request w) = Returned response
    /\ fst (chat request w) = Returned response
    /\ db (snd (chat request w)) !! sid = Some r'
    /\ row_profile_data r' = row_profile_data before
    /\ rs_progress response = progress (length (row_profile_data before))
    /\ row_chat_history r'
       = (heard request (row_chat_history before)
          ++ [Turn "assistant" (rs_question response)])%list.
Proof.
  intros Hfirst Hext Hsel Hins Hupd sid before. subst sid before.
  rewrite chat_world, chat_run, chat_body_run, get_session_run, Hsel, Hfirst.
  destruct (db w !! rq_session_id request) as [r|] eqn:Hr;
    [|rewrite Hins]; cbv beta iota;
    rewrite next_turn_run; cbv beta iota zeta;
    rewrite learn_run; cbv beta iota zeta;
    (destruct (PyStr.nonempty (PyStr.strip (rq_message request)));
     [rewrite extraction_failed by (apply Hext; reflexivity)|]);
    cbv beta iota; rewrite save_session_run, Hupd; cbn [db trace];
    rewrite ?lookup_insert_eq, ?Hr; cbv beta iota;
    eexists; eexists; (split; [reflexivity|]); (split; [reflexivity|]);
    cbn [fst snd db]; rewrite lookup_insert_eq;
    (split; [reflexivity|]); repeat split.
Qed.

(** X15. An extraction answer that decodes to something other than an
    object loses the turn: [extracted.items()] raises, the caller gets the
    fallback response, the stored session is not changed (the user's message
    is not recorded) and the model is called once, for the extraction, and
    not for a reply. *)
Theorem non_dict_extraction_drops_turn request w r :
  rq_is_first_message request = false ->
  PyStr.nonempty (PyStr.strip (rq_message request)) = true ->
  db w !! rq_session_id request = Some r ->
  sqlite_fault E SqlSelect = false ->
  (forall p kvs, is_extraction p = true -> extracted_of p <> PyDict kvs) ->
  fst (chat_body request w) = Raised AttributeError
  /\ fst (chat request w) = Returned (fallback request)
  /\ db (snd (chat request w)) = db w
  /\ exists e,
       is_extraction e = true
       /\ model_calls (trace (snd (chat request w)))
          = (model_calls (trace w) ++ [e])%list.
Proof.
  intros Hfirst Hspoke Hr Hsel Hext.
  rewrite chat_world, chat_run, chat_body_run, get_session_run, Hsel, Hr, Hfirst.
  cbv beta iota. rewrite next_turn_run. cbv beta iota zeta.
  rewrite learn_run, Hspoke. cbv beta iota zeta.
  match goal with |- context [extracted_of ?p] =>
    pose proof (fun kvs => Hext p kvs eq_refl) as Hp;
    destruct (extracted_of p) as [| | | | | |kvs]
  end; try (now contradiction (Hp kvs));
    simpl; (split; [reflexivity|]; split; [reflexivity|];
            split; [reflexivity|]);
    eexists; (split; [|rewrite model_calls_app, model_calls_call_events;
                       reflexivity]); reflexivity.
Qed.



End ChatLaws.

(** ** Prompts and decoding *)

Module FenceLaws.
Import PyStr.

Lemma append_nonempty a b : b <> EmptyString -> a ++ b <> EmptyString.
Proof. destruct a; simpl; [auto | discriminate]. Qed.

Lemma rstrip_app a b :
  rstrip b <> EmptyString -> rstrip (a ++ b) = a ++ rstrip b.
Proof.
  intros Hb. induction a as [|c a IH]; [reflexivity|].
  change (rstrip (String c (a ++ b)) = String c (a ++ rstrip b)).
  cbn [rstrip]. rewrite IH.
  pose proof (append_nonempty a (rstrip b) Hb) as Hne.
  destruct (a ++ rstrip b); [contradiction | reflexivity].
Qed.

Lemma partition_no_backtick s rest :
  no_backtick s = true ->
  partition "```" (s ++ "```" ++ rest) = Some (s, rest).
Proof.
  induction s as [|c s IH]; [intros _; now destruct rest|].
  intros [Hc Hs]%andb_prop. apply negb_true_iff, Ascii.eqb_neq in Hc.
  change (partition "```" (String c (s ++ "```" ++ rest))
          = Some (String c s, rest)).
  cbn [partition String.prefix].
  destruct (Ascii.ascii_dec "`" c) as [Heq|_]; [now subst c|].
  now rewrite (IH Hs).
Qed.

Lemma split_fuel_length fuel sep s : 1 <= length (split_fuel fuel sep s).
Proof.
  destruct fuel; simpl; [lia|]. destruct (partition sep s) as [[b a]|]; simpl; lia.
Qed.

Lemma drop_length n s : String.length (drop n s) = String.length s - n.
Proof.
  revert s. induction n as [|n IH]; intros s; simpl; [lia|].
  destruct s as [|c s]; simpl; [reflexivity | apply IH].
Qed.

(** What follows a separator is shorter than the text, so the number of
    pieces is bounded by its length. *)
Lemma partition_shorter sep s b a :
  sep <> EmptyString ->
  partition sep s = Some (b, a) -> String.length a < String.length s.
Proof.
  intros Hsep. revert b. induction s as [|c s IH]; intros b.
  - destruct sep; [contradiction | discriminate].
  - cbn [partition].
    destruct (String.prefix sep (String c s)).
    + intros [= _ <-]. rewrite drop_length.
      destruct sep; [contradiction | simpl; lia].
    + destruct (partition sep s) as [[b' a']|]; [|discriminate].
      intros [= _ <-]. specialize (IH b' eq_refl). simpl. lia.
Qed.

(** The fuel of [split] is enough: more fuel gives the same pieces. *)
Lemma split_fuel_enough sep s fuel :
  sep <> EmptyString ->
  String.length s <= fuel ->
  split_fuel fuel sep s = split sep s.
Proof.
  intros Hsep. unfold split.
  assert (H : forall n s f1 f2,
             String.length s <= n -> n <= f1 -> n <= f2 ->
             split_fuel f1 sep s = split_fuel f2 sep s).
  { clear s fuel. induction n as [|n IH]; intros s f1 f2 Hs H1 H2.
    - destruct s; [|simpl in Hs; lia].
      assert (Hp : partition sep EmptyString = None)
        by (destruct sep; [contradiction | reflexivity]).
      destruct f1, f2; cbn [split_fuel]; rewrite ?Hp; reflexivity.
    - destruct f1 as [|f1]; [lia|]. destruct f2 as [|f2]; [lia|].
      cbn [split_fuel].
      destruct (partition sep s) as [[b a]|] eqn:Hp; [|reflexivity].
      apply partition_shorter in Hp; [|assumption].
      f_equal. apply IH; lia. }
  intros Hfuel. apply (H (String.length s)); lia.
Qed.

Lemma strip_fenced body :
  strip ("```json" ++ body ++ "```") = "```json" ++ body ++ "```".
Proof.
  unfold strip.
  change (lstrip ("```json" ++ body ++ "```"))
    with (("```json" ++ body) ++ "```").
  rewrite rstrip_app; [reflexivity | discriminate].
Qed.

Lemma split_fenced body :
  no_backtick body = true ->
  exists tail,
    split "```" ("```json" ++ body ++ "```")
    = EmptyString :: ("json" ++ body) :: tail.
Proof.
  intros Hbody. unfold split.
  assert (Hfuel : exists n, String.length ("```json" ++ body ++ "```")
                            = S (S n)) by (eexists; reflexivity).
  destruct Hfuel as [n ->].
  change (split_fuel (S (S n)) "```" ("```json" ++ body ++ "```"))
    with (EmptyString
          :: split_fuel (S n) "```" (("json" ++ body) ++ "```" ++ EmptyString)).
  cbn [split_fuel]. rewrite partition_no_backtick by exact Hbody. eauto.
Qed.

End FenceLaws.

(** X17. The text handed to the decoder.  Without a leading code fence it
    is the trimmed answer.  With one, the index [1] of the split is always in
    range, and an answer of the form fence, "json", body, fence, whose body
    holds no backtick, is unwrapped to the trimmed body. *)
Theorem unfence_cases text :
  (PyStr.startswith (PyStr.strip text) "```" = false ->
   unfence text = PyStr.strip text)
  /\ (PyStr.startswith (PyStr.strip text) "```" = true ->
      2 <= length (PyStr.split "```" (PyStr.strip text)))
  /\ (forall body,
        no_backtick body = true ->
        text = "```json" ++ body ++ "```" ->
        unfence text = PyStr.strip body).
Proof.
  split; [|split].
  - unfold unfence. now intros ->.
  - unfold PyStr.startswith. intros [rest ->]%ContainsLaws.prefix_split.
    unfold PyStr.split.
    pose (fuel := S (S (String.length rest))).
    change (String.length ("```" ++ rest)) with (S fuel).
    assert (Hp : PyStr.partition "```" ("```" ++ rest)
                 = Some (EmptyString, rest)) by now destruct rest.
    cbn [PyStr.split_fuel]. rewrite Hp. cbn [length].
    pose proof (FenceLaws.split_fuel_length fuel "```" rest). lia.
  - intros body Hbody ->. unfold unfence.
    rewrite FenceLaws.strip_fenced.
    destruct (FenceLaws.split_fenced body Hbody) as [tail ->].
    cbn [nth].
    replace (PyStr.startswith ("```json" ++ body ++ "```") "```")
      with true by reflexivity.
    replace (PyStr.startswith ("json" ++ body) "json")
      with true by (symmetry; apply (ContainsLaws.prefix_app "json" body)).
    reflexivity.
Qed.

Lemma length_last_n {A} n (l : list A) : length (last_n n l) = Nat.min n (length l).
Proof. unfold last_n. rewrite length_drop. lia. Qed.

Lemma last_n_suffix {A} n (l : list A) :
  l = (take (length l - n) l ++ last_n n l)%list.
Proof. unfold last_n. now rewrite take_drop. Qed.

(** X18. The context windows are bounded suffixes of the transcript: the
    extraction context (the conditional of lines 163-167, which is the plain
    slice) holds the last four turns, or all of them when there are fewer,
    and the generation context the last ten. *)
Theorem context_windows (h : list turn) :
  let recent_chat := if (4 <=? length h)%nat then last_n 4 h else h in
  recent_chat = last_n 4 h
  /\ length recent_chat = Nat.min 4 (length h)
  /\ (exists older, h = (older ++ recent_chat)%list)
  /\ length (last_n 10 h) = Nat.min 10 (length h)
  /\ (exists older, h = (older ++ last_n 10 h)%list)
  /\ (length h <= 4 -> recent_chat = h)
  /\ (length h <= 10 -> last_n 10 h = h).
Proof.
  intros recent_chat.
  assert (Hall : forall n, length h <= n -> last_n n h = h).
  { intros n Hn. unfold last_n.
    replace (length h - n) with 0 by lia. reflexivity. }
  assert (Hrecent : recent_chat = last_n 4 h).
  { subst recent_chat. destruct (Nat.leb_spec 4 (length h)); [reflexivity|].
    symmetry. apply Hall. lia. }
  rewrite Hrecent.
  split; [reflexivity|]. split; [apply length_last_n|].
  split; [eexists; apply last_n_suffix|].
  split; [apply length_last_n|].
  split; [eexists; apply last_n_suffix|]. auto.
Qed.

(** X19. The profile summary of the prompt: the placeholder text stands in
    exactly for the empty profile; any other profile is listed one line per
    key, in the order of the dictionary, each line starting with a dash. *)
Theorem profile_summary_cases (p : profile) :
  profile_summary [] = "Nothing solid yet"
  /\ (p <> [] ->
      profile_summary p
      = PyStr.join newline
          (map (fun kv => "- " ++ fst kv ++ ": " ++ snd kv) p)
      /\ String.prefix "- " (profile_summary p) = true
      /\ profile_summary p <> "Nothing solid yet").
Proof.
  split; [reflexivity|]. intros Hp.
  destruct p as [|[k v] rest]; [contradiction|].
  assert (Hjoin : exists tl,
             PyStr.join newline
               (map (fun kv => "- " ++ fst kv ++ ": " ++ snd kv)
                  ((k, v) :: rest))
             = "- " ++ tl).
  { destruct rest as [|kv rest]; eexists; reflexivity. }
  destruct Hjoin as [tl Hjoin].
  unfold profile_summary. rewrite Hjoin.
  change (PyStr.nonempty ("- " ++ tl)) with true. cbv beta iota.
  split; [reflexivity|].
  split; [now destruct tl | discriminate].
Qed.

(** ** Faults at the session endpoints *)

Section EndpointFaults.

Variable E : env.

(** X20. The session endpoints have no handler: when the driver raises on
    their statement, the exception leaves the endpoint and the table is
    untouched; a fetch of a new id whose INSERT fails creates nothing. *)
Theorem session_endpoints_propagate_faults sid w :
  (sqlite_fault E SqlSelect = true ->
   get_session_data E sid w = (Raised OperationalError, w))
  /\ (sqlite_fault E SqlSelect = false ->
      sqlite_fault E SqlInsert = true ->
      db w !! sid = None ->
      get_session_data E sid w = (Raised OperationalError, w))
  /\ (sqlite_fault E SqlSelectAll = true ->
      get_all_sessions E w = (Raised OperationalError, w))
  /\ (sqlite_fault E SqlDelete = true ->
      delete_session E sid w = (Raised OperationalError, w)).
Proof.
  unfold get_session_data.
  rewrite get_session_run, get_all_sessions_run, delete_session_run.
  repeat split.
  - now intros ->.
  - now intros -> -> ->.
  - now intros ->.
  - now intros ->.
Qed.

End EndpointFaults.

(** ** Instances of the further properties *)

Lemma delete_session_idempotent_witness :
  sqlite_fault Sample.healthy SqlDelete = false
  /\ db (snd (delete_session Sample.healthy "s" Sample.finished_world)) !! "s"
     = None.
Proof.
  split; [reflexivity|].
  exact (proj1 (proj2 (proj2 (delete_session_idempotent Sample.healthy "s"
                                Sample.finished_world eq_refl)))).
Defined.

Lemma save_session_never_creates_witness :
  db Sample.empty_world !! "s" = None
  /\ db (snd (save_session Sample.healthy "s" [("city", "Lahore")] [] true
                Sample.empty_world))
     = db Sample.empty_world.
Proof.
  split; [reflexivity|].
  exact (proj1 (save_session_never_creates Sample.healthy "s"
                  [("city", "Lahore")] [] true Sample.empty_world eq_refl)).
Defined.

Lemma save_then_get_session_witness :
  db Sample.finished_world !! "s" = Some Sample.finished_row
  /\ fst (get_session Sample.healthy "s"
            (snd (save_session Sample.healthy "s" [("city", "Karachi")] []
                    false Sample.finished_world)))
     = Returned (Session "s" [] [("city", "Karachi")] false).
Proof.
  split; [reflexivity|].
  rewrite (proj1 (save_then_get_session Sample.healthy "s"
                    [("city", "Karachi")] [] false Sample.finished_world
                    Sample.finished_row eq_refl eq_refl eq_refl)).
  reflexivity.
Defined.

Lemma get_session_twice_witness :
  sqlite_fault Sample.healthy SqlSelect = false
  /\ sqlite_fault Sample.healthy SqlInsert = false
  /\ get_session Sample.healthy "new"
       (snd (get_session Sample.healthy "new" Sample.empty_world))
     = (fst (get_session Sample.healthy "new" Sample.empty_world),
        snd (get_session Sample.healthy "new" Sample.empty_world)).
Proof.
  split; [reflexivity|]. split; [reflexivity|].
  exact (proj1 (get_session_twice Sample.healthy "new" Sample.empty_world
                  eq_refl eq_refl)).
Defined.

Lemma get_all_sessions_listing_witness :
  sqlite_fault Sample.healthy SqlSelectAll = false
  /\ exists listing,
       get_all_sessions Sample.healthy Scenario.two_sessions
       = (Returned listing, Scenario.two_sessions)
       /\ StronglySorted newer_entry listing
       /\ length listing = size (db Scenario.two_sessions).
Proof.
  split; [reflexivity|].
  destruct (get_all_sessions_listing Sample.healthy Scenario.two_sessions
              eq_refl) as (listing & Hrun & Hsorted & Hlen & _).
  exists listing. auto.
Defined.

Lemma merge_facts_well_formed_witness :
  List.NoDup (map fst ([] : profile))
  /\ List.NoDup
       (map fst (merge_facts Sample.py_repr [] Scenario.candidates))
  /\ forall k s,
       dict_get (merge_facts Sample.py_repr [] Scenario.candidates) k = Some s ->
       clean_value s.
Proof.
  split; [constructor|].
  apply (merge_facts_well_formed Sample.py_repr [] Scenario.candidates).
  - constructor.
  - intros k s H. discriminate H.
Defined.

Lemma has_stop_signal_iff_witness :
  In "ready to discuss" stop_signals
  /\ has_stop_signal ("great, ready to discuss " ++ "it!") = true.
Proof.
  split; [simpl; tauto|].
  apply (proj2 (has_stop_signal_iff ("great, ready to discuss " ++ "it!"))).
  exists "ready to discuss", "great, ", " it!".
  split; [simpl; tauto | reflexivity].
Defined.

Lemma chat_touches_one_row_witness :
  "t" <> rq_session_id Sample.later_message
  /\ db (snd (chat Sample.py_repr Sample.json_loads Sample.healthy
                Sample.later_message Scenario.two_sessions)) !! "t"
     = db Scenario.two_sessions !! "t".
Proof.
  split; [discriminate|].
  apply (chat_touches_one_row Sample.py_repr Sample.json_loads Sample.healthy
           Sample.later_message Scenario.two_sessions "t").
  discriminate.
Defined.

Lemma transcript_append_only_witness :
  db Sample.finished_world !! rq_session_id Sample.later_message
  = Some Sample.finished_row
  /\ exists r' added,
       db (snd (chat Sample.py_repr Sample.json_loads Sample.healthy
                  Sample.later_message Sample.finished_world)) !! "s" = Some r'
       /\ row_chat_history r'
          = (row_chat_history Sample.finished_row ++ added)%list.
Proof.
  split; [reflexivity|].
  destruct (transcript_append_only Sample.py_repr Sample.json_loads
              Sample.healthy Sample.later_message Sample.finished_world
              Sample.finished_row eq_refl) as (r' & added & H1 & H2 & _).
  exists r', added. auto.
Defined.

Lemma turn_stores_what_it_answers_witness :
  rq_is_first_message Sample.later_message = false
  /\ fst (chat_body Sample.py_repr Sample.json_loads Sample.healthy
            Sample.later_message Sample.finished_world)
     = Returned (Response "Nice. What are you studying?" true 5 "s")
  /\ fst (chat Sample.py_repr Sample.json_loads Sample.healthy
            Sample.later_message Sample.finished_world)
     = Returned (Response "Nice. What are you studying?" true 5 "s").
Proof.
  assert (H : fst (chat_body Sample.py_repr Sample.json_loads Sample.healthy
                     Sample.later_message Sample.finished_world)
              = Returned (Response "Nice. What are you studying?" true 5 "s"))
    by (vm_compute; reflexivity).
  split; [reflexivity|]. split; [exact H|].
  exact (proj1 (turn_stores_what_it_answers Sample.py_repr Sample.json_loads
                  Sample.healthy Sample.later_message Sample.finished_world
                  _ eq_refl H)).
Defined.


Lemma extraction_failure_is_tolerated_witness :
  rq_is_first_message Sample.later_message = false
  /\ (forall p, is_extraction p = true ->
                generate_content Scenario.deaf p = ServiceError)
  /\ exists response r',
       fst (chat Sample.py_repr Sample.json_loads Scenario.deaf
              Sample.later_message Sample.finished_world) = Returned response
       /\ db (snd (chat Sample.py_repr Sample.json_loads Scenario.deaf
                     Sample.later_message Sample.finished_world)) !! "s"
          = Some r'
       /\ row_profile_data r' = [("city", "Lahore")].
Proof.
  assert (Hext : forall p, is_extraction p = true ->
                           generate_content Scenario.deaf p = ServiceError)
    by (intros [] Hp; [reflexivity | discriminate Hp]).
  split; [reflexivity|]. split; [exact Hext|].
  destruct (extraction_failure_is_tolerated Sample.py_repr Sample.json_loads
              Scenario.deaf Sample.later_message Sample.finished_world
              eq_refl (fun p Hp => or_introl (Hext p Hp))
              eq_refl eq_refl eq_refl)
    as (response & r' & _ & H2 & H3 & H4 & _).
  exists response, r'. auto.
Defined.

Lemma non_dict_extraction_drops_turn_witness :
  PyStr.nonempty (PyStr.strip (rq_message Sample.later_message)) = true
  /\ db Sample.finished_world !! rq_session_id Sample.later_message
     = Some Sample.finished_row
  /\ fst (chat Sample.py_repr Sample.json_loads Sample.odd_extraction
            Sample.later_message Sample.finished_world)
     = Returned (fallback Sample.later_message)
  /\ db (snd (chat Sample.py_repr Sample.json_loads Sample.odd_extraction
                Sample.later_message Sample.finished_world))
     = db Sample.finished_world.
Proof.
  split; [reflexivity|]. split; [reflexivity|].
  assert (Hext : forall p kvs,
             is_extraction p = true ->
             extracted_of Sample.json_loads Sample.odd_extraction p
             <> PyDict kvs)
    by (intros [] kvs Hp; [discriminate | discriminate Hp]).
  destruct (non_dict_extraction_drops_turn Sample.py_repr Sample.json_loads
              Sample.odd_extraction Sample.later_message Sample.finished_world
              Sample.finished_row eq_refl eq_refl eq_refl eq_refl Hext)
    as (_ & H2 & H3 & _).
  auto.
Defined.


Lemma unfence_cases_witness :
  no_backtick " {} " = true
  /\ unfence ("```json" ++ " {} " ++ "```") = "{}".
Proof.
  split; [reflexivity|].
  exact (proj2 (proj2 (unfence_cases ("```json" ++ " {} " ++ "```")))
           " {} " eq_refl eq_refl).
Defined.

Lemma context_windows_witness :
  length (row_chat_history Sample.finished_row) <= 4
  /\ (if (4 <=? length (row_chat_history Sample.finished_row))%nat
      then last_n 4 (row_chat_history Sample.finished_row)
      else row_chat_history Sample.finished_row)
     = row_chat_history Sample.finished_row.
Proof.
  assert (H : length (row_chat_history Sample.finished_row) <= 4)
    by (simpl; lia).
  split; [exact H|].
  destruct (context_windows (row_chat_history Sample.finished_row))
    as (_ & _ & _ & _ & _ & Hshort & _).
  exact (Hshort H).
Defined.

Lemma profile_summary_cases_witness :
  row_profile_data Sample.finished_row <> []
  /\ String.prefix "- " (profile_summary (row_profile_data Sample.finished_row))
     = true.
Proof.
  assert (H : row_profile_data Sample.finished_row <> []) by discriminate.
  split; [exact H|].
  exact (proj1 (proj2 (proj2 (profile_summary_cases
                                (row_profile_data Sample.finished_row)) H))).
Defined.

Lemma session_endpoints_propagate_faults_witness :
  sqlite_fault Scenario.broken SqlDelete = true
  /\ delete_session Scenario.broken "s" Sample.finished_world
     = (Raised OperationalError, Sample.finished_world).
Proof.
  split; [reflexivity|].
  exact (proj2 (proj2 (proj2 (session_endpoints_propagate_faults
                                Scenario.broken "s" Sample.finished_world)))
           eq_refl).
Defined.
